(** * csa.utils.logger: logger configuration and stale-log cleanup

    A shallow embedding of [src/csa/utils/logger.py].  The Python module
    has three entry points, [cleanup_old_logs], [setup_logger] and
    [get_logger], and one formatter class, [CustomFormatter].  They act on
    ambient state (the process environment, the file system, the clock and
    the registry of named loggers of the [logging] package), which is
    gathered here in one record, [World], threaded through a small
    state-and-exception monad.  The environment of a world is the one
    left by [load_dotenv()] when the module was imported.

    Conventions of the embedding:
    - A Python [str] is the [string] of the bytes of its UTF-8 encoding.
      [str.strip] removes the white space of Unicode; [str.upper] is
      exact wherever its result is ASCII.
    - Python [float] timestamps ([time.time()], [st_mtime],
      [LogRecord.created]) are exact rationals [Q].
    - The file system is a POSIX one without links, used by this process
      alone.  Its entries are recorded under the path strings handed to
      the operating system, in normal form: a string that is no key
      names nothing, and two keys name two files.  What is stated of a
      path is stated of a key.  An entry that is there can always be
      read; whether it can be deleted is recorded with it.
    - Local time is UTC shifted by the offset of the world; [strftime]
      is the one of years 1000 to 9999, where [%Y] has four digits.
    - A logger is its threshold, its handlers and its propagate flag;
      its place in the hierarchy of dotted names is not recorded. *)

From Stdlib Require Import ZArith QArith Qround String Ascii List Lia.
From Stdlib Require Import DecimalString Lqa.
From stdpp Require Import gmap strings list.

Local Open Scope string_scope.
Local Open Scope list_scope.
Local Open Scope Z_scope.

(** ** Strings *)

Module Str.

(** A [str] is held as the bytes of its UTF-8 encoding. *)

(** The string of the bytes of the given codes. *)
Definition of_codes (l : list N) : string :=
  fold_right (fun n s => String (ascii_of_N n) s) EmptyString l.

(** The white-space characters of [str.isspace], in UTF-8: U+0009 to
    U+000D, U+001C to U+0020, U+0085, U+00A0, U+1680, U+2000 to U+200A,
    U+2028, U+2029, U+202F, U+205F and U+3000. *)
Definition spaces : list string :=
  map of_codes
    [[9]; [10]; [11]; [12]; [13]; [28]; [29]; [30]; [31]; [32];
     [194; 133]; [194; 160]; [225; 154; 128];
     [226; 128; 128]; [226; 128; 129]; [226; 128; 130]; [226; 128; 131];
     [226; 128; 132]; [226; 128; 133]; [226; 128; 134]; [226; 128; 135];
     [226; 128; 136]; [226; 128; 137]; [226; 128; 138];
     [226; 128; 168]; [226; 128; 169]; [226; 128; 175]; [226; 129; 159];
     [227; 128; 128]]%N.

(** [s] is one white-space character. *)
Definition is_space (s : string) : bool := existsb (String.eqb s) spaces.

Fixpoint lstrip_by (f : ascii -> bool) (s : string) : string :=
  match s with
  | String c s' => if f c then lstrip_by f s' else s
  | EmptyString => EmptyString
  end.

Fixpoint rstrip_by (f : ascii -> bool) (s : string) : string :=
  match s with
  | String c s' =>
      match rstrip_by f s' with
      | EmptyString => if f c then EmptyString else String c EmptyString
      | r => String c r
      end
  | EmptyString => EmptyString
  end.

(** [s.lstrip()]: the white-space characters at the start, of one, two
    or three bytes, are dropped. *)
Fixpoint lstrip (s : string) : string :=
  match s with
  | String a s1 =>
      if is_space (String a "") then lstrip s1
      else
        match s1 with
        | String b s2 =>
            if is_space (String a (String b "")) then lstrip s2
            else
              match s2 with
              | String c s3 =>
                  if is_space (String a (String b (String c ""))) then lstrip s3 else s
              | EmptyString => s
              end
        | EmptyString => s
        end
  | EmptyString => EmptyString
  end.

(** [s.rstrip()]: what is left of the tail is dropped with the byte
    before it when the two make up a white-space character. *)
Fixpoint rstrip (s : string) : string :=
  match s with
  | String a s' =>
      let r := rstrip s' in
      if is_space (String a r) then EmptyString else String a r
  | EmptyString => EmptyString
  end.

(** [s.strip()] *)
Definition strip (s : string) : string := rstrip (lstrip s).

Definition upper_char (c : ascii) : ascii :=
  let n := N_of_ascii c in
  if ((97 <=? n) && (n <=? 122))%N then ascii_of_N (n - 32) else c.

Definition lower_char (c : ascii) : ascii :=
  let n := N_of_ascii c in
  if ((65 <=? n) && (n <=? 90))%N then ascii_of_N (n + 32) else c.

Fixpoint map_chars (f : ascii -> ascii) (s : string) : string :=
  match s with
  | String c s' => String (f c) (map_chars f s')
  | EmptyString => EmptyString
  end.

(** Upper and lower case of the letters of ASCII, the other bytes kept. *)
Definition ascii_upper : string -> string := map_chars upper_char.
Definition ascii_lower : string -> string := map_chars lower_char.

(** The characters outside ASCII whose upper case is made of ASCII
    letters, in UTF-8, with that upper case: U+00DF, U+0131, U+017F and
    the ligatures U+FB00 to U+FB06. *)
Definition upper_special : list (string * string) :=
  [(of_codes [195; 159], "SS"); (of_codes [196; 177], "I"); (of_codes [197; 191], "S");
   (of_codes [239; 172; 128], "FF"); (of_codes [239; 172; 129], "FI");
   (of_codes [239; 172; 130], "FL"); (of_codes [239; 172; 131], "FFI");
   (of_codes [239; 172; 132], "FFL"); (of_codes [239; 172; 133], "ST");
   (of_codes [239; 172; 134], "ST")]%N.

Fixpoint assoc (l : list (string * string)) (k : string) : option string :=
  match l with
  | (k', v) :: l' => if String.eqb k' k then Some v else assoc l' k
  | [] => None
  end.

(** [s.upper()] on the UTF-8 encoding.  It is exact on every string
    whose upper case is ASCII; a character whose upper case holds a
    character outside ASCII is left as it is. *)
Fixpoint upper (s : string) : string :=
  match s with
  | String a s1 =>
      let one := String (upper_char a) (upper s1) in
      match s1 with
      | String b s2 =>
          match assoc upper_special (String a (String b "")) with
          | Some u => u +:+ upper s2
          | None =>
              match s2 with
              | String c s3 =>
                  match assoc upper_special (String a (String b (String c ""))) with
                  | Some u => u +:+ upper s3
                  | None => one
                  end
              | EmptyString => one
              end
          end
      | EmptyString => one
      end
  | EmptyString => EmptyString
  end.

(** [a] is the first byte of a white-space character. *)
Definition lead (a : ascii) : bool :=
  existsb (fun c => match c with String x _ => Ascii.eqb a x | EmptyString => false end)
    spaces.

(** [a] is one of the letters A to Z. *)
Definition is_upper (a : ascii) : bool :=
  let n := N_of_ascii a in ((65 <=? n) && (n <=? 90))%N.

(** [a] is a byte of ASCII. *)
Definition is_ascii (a : ascii) : bool := (N_of_ascii a <? 128)%N.

(** The number of bytes of the character that the byte [a] begins; a
    byte that begins none stands alone. *)
Definition char_width (a : ascii) : nat :=
  let n := N_of_ascii a in
  if (n <? 194)%N then 1
  else if (n <? 224)%N then 2
  else if (n <? 240)%N then 3
  else if (n <? 245)%N then 4
  else 1.

Definition is_continuation (a : ascii) : bool :=
  let n := N_of_ascii a in ((128 <=? n) && (n <? 192))%N.

(** The [k] continuation bytes at the start of [s], if they are there. *)
Fixpoint take_continuation (k : nat) (s : string) : option string :=
  match k with
  | O => Some EmptyString
  | S k' =>
      match s with
      | String b s' =>
          if is_continuation b
          then match take_continuation k' s' with
               | Some t => Some (String b t)
               | None => None
               end
          else None
      | EmptyString => None
      end
  end.

(** [s[0]], the first character of [s], when there is one. *)
Definition head (s : string) : option string :=
  match s with
  | String a s' =>
      Some (String a (match take_continuation (char_width a - 1) s' with
                      | Some t => t
                      | None => EmptyString
                      end))
  | EmptyString => None
  end.

Fixpoint all_chars (f : ascii -> bool) (s : string) : bool :=
  match s with
  | String c s' => f c && all_chars f s'
  | EmptyString => true
  end.

Definition is_slash (c : ascii) : bool := Ascii.eqb c "/".

(** [drop_prefix p s] is [Some r] when [s = p + r]. *)
Fixpoint drop_prefix (p s : string) : option string :=
  match p, s with
  | EmptyString, _ => Some s
  | String a p', String b s' => if Ascii.eqb a b then drop_prefix p' s' else None
  | String _ _, EmptyString => None
  end.

(** [s.startswith(p)] *)
Definition startswith (p s : string) : bool :=
  match drop_prefix p s with Some _ => true | None => false end.

(** [s[-1:]] as an optional character. *)
Fixpoint last_char (s : string) : option ascii :=
  match s with
  | String c EmptyString => Some c
  | String _ s' => last_char s'
  | EmptyString => None
  end.

(** Decimal rendering of an integer, as [str(n)]. *)
Definition of_Z (n : Z) : string := NilZero.string_of_int (Z.to_int n).

Fixpoint zeros (n : nat) : string :=
  match n with
  | O => EmptyString
  | S n' => String "0" (zeros n')
  end.

(** [format(n, "0{width}d")]: zero padding to a minimal width, the sign
    counted in the width. *)
Definition format_d (width : nat) (n : Z) : string :=
  if n <? 0 then
    let digits := of_Z (- n) in
    String "-" (zeros (width - 1 - String.length digits) +:+ digits)
  else
    let digits := of_Z n in
    zeros (width - String.length digits) +:+ digits.

End Str.

(** ** Exceptions and the state monad *)

Inductive exn : Set :=
| FileNotFoundError
| FileExistsError
| PermissionError
| IsADirectoryError
| OSError
| IndexError
| KeyError
| ValueError.

Inductive outcome (A : Type) : Type :=
| Return (a : A)
| Raise (e : exn).
Arguments Return {A} a.
Arguments Raise {A} e.

Definition is_return {A} (o : outcome A) : bool :=
  match o with Return _ => true | Raise _ => false end.

(** ** File system, handlers, loggers *)

(** A directory entry.  [unlink_error] is what [unlink] on the file would
    raise ([None]: the deletion succeeds).  The modification time of a
    directory is not refreshed by the model when an entry is added to or
    removed from it. *)
Inductive node : Type :=
| File (st_mtime : Q) (unlink_error : option exn)
| Dir (st_mtime : Q).

Definition st_mtime (n : node) : Q :=
  match n with File t _ => t | Dir t => t end.

Definition is_dir (n : option node) : bool :=
  match n with Some (Dir _) => true | _ => false end.

(** Calls into the operating system that may change the file system. *)
Inductive syscall : Type :=
| SysMakedirs (path : string)
| SysUnlink (path : string)
| SysOpen (path mode : string).

(** An instance of [CustomFormatter]: the [fmt] template and [datefmt]. *)
Record Formatter : Type := mkFormatter {
  fmt : string;
  datefmt : option string;
}.

Inductive sink : Type :=
| Console
| FileSink (filename mode encoding : string).

(** [logging.Handler]: a sink, a threshold and an optional formatter. *)
Record Handler : Type := mkHandler {
  h_sink : sink;
  h_level : Z;
  h_formatter : option Formatter;
}.

(** [logging.Logger] *)
Record Logger : Type := mkLogger {
  level : Z;
  handlers : list Handler;
  propagate : bool;
}.

Record World : Type := mkWorld {
  environ : gmap string string;   (* os.environ *)
  fs : gmap string node;          (* path |-> entry *)
  clock : Q;                      (* time.time(), constant during a call *)
  utcoffset : Z;                  (* local time minus UTC, in seconds *)
  loggers : gmap string Logger;   (* logging's registry, by name *)
  syscalls : list syscall;        (* history of mutating OS calls *)
}.

Definition set_fs (f : gmap string node -> gmap string node) (w : World) : World :=
  mkWorld (environ w) (f (fs w)) (clock w) (utcoffset w) (loggers w) (syscalls w).

Definition set_loggers (f : gmap string Logger -> gmap string Logger) (w : World) : World :=
  mkWorld (environ w) (fs w) (clock w) (utcoffset w) (f (loggers w)) (syscalls w).

Definition set_environ (f : gmap string string -> gmap string string) (w : World) : World :=
  mkWorld (f (environ w)) (fs w) (clock w) (utcoffset w) (loggers w) (syscalls w).

Definition log_syscall (c : syscall) (w : World) : World :=
  mkWorld (environ w) (fs w) (clock w) (utcoffset w) (loggers w) (syscalls w ++ [c]).

(** Computations over the world that return or raise. *)
Definition M (A : Type) : Type := World -> outcome A * World.

Definition ret {A} (a : A) : M A := fun w => (Return a, w).
Definition raise {A} (e : exn) : M A := fun w => (Raise e, w).

Definition bind {A B} (m : M A) (k : A -> M B) : M B := fun w =>
  match m w with
  | (Return a, w') => k a w'
  | (Raise e, w') => (Raise e, w')
  end.

Declare Scope py_scope.
Delimit Scope py_scope with py.
Notation "x <- m ;; k" := (bind m (fun x => k))
  (at level 100, m at next level, right associativity) : py_scope.
Notation "m ;;; k" := (bind m (fun _ => k))
  (at level 100, right associativity) : py_scope.
Local Open Scope py_scope.

(** [try: m / except Exception: pass] *)
Definition try_pass (m : M unit) : M unit := fun w =>
  match m w with
  | (Raise _, w') => (Return tt, w')
  | r => r
  end.

(** [for x in l: body(x)] *)
Fixpoint for_each {A} (l : list A) (body : A -> M unit) : M unit :=
  match l with
  | [] => ret tt
  | x :: l' => body x ;;; for_each l' body
  end.

Definition modify (f : World -> World) : M unit := fun w => (Return tt, f w).

(** ** The operating system: [os], [os.path], [pathlib], [time] *)

Module OS.

(** [os.getenv(key, default)] *)
Definition getenv (key default : string) : M string := fun w =>
  (Return (match environ w !! key with Some v => v | None => default end), w).

(** [time.time()] *)
Definition time : M Q := fun w => (Return (clock w), w).

(** [os.path.exists(path)] *)
Definition path_exists (path : string) : M bool := fun w =>
  (Return (match fs w !! path with Some _ => true | None => false end), w).

(** [os.path.join(a, b)] on POSIX. *)
Definition path_join (a b : string) : string :=
  if Str.startswith "/" b then b
  else if (String.eqb a "" || bool_decide (Str.last_char a = Some "/"%char))%bool then a +:+ b
  else a +:+ "/" +:+ b.

(** [p[:p.rfind('/') + 1]] *)
Fixpoint path_head (p : string) : string :=
  match p with
  | String c p' =>
      match path_head p' with
      | EmptyString => if Str.is_slash c then String c EmptyString else EmptyString
      | h => String c h
      end
  | EmptyString => EmptyString
  end.

(** [os.path.dirname(p)] on POSIX. *)
Definition dirname (p : string) : string :=
  let head := path_head p in
  if Str.all_chars Str.is_slash head then head else Str.rstrip_by Str.is_slash head.

(** [os.makedirs(path, exist_ok=exist_ok)] for a path of one component,
    the only use in the module. *)
Definition makedirs (path : string) (exist_ok : bool) : M unit := fun w =>
  let w := log_syscall (SysMakedirs path) w in
  match fs w !! path with
  | None => (Return tt, set_fs (insert path (Dir (clock w))) w)
  | Some (Dir _) => if exist_ok then (Return tt, w) else (Raise FileExistsError, w)
  | Some (File _ _) => (Raise FileExistsError, w)
  end.

(** [fnmatch] for patterns made of literal characters and [*]. *)
Fixpoint fnmatch (pat : string) : string -> bool :=
  match pat with
  | EmptyString => fun s => match s with EmptyString => true | _ => false end
  | String c pat' =>
      if Ascii.eqb c "*" then
        fix star (s : string) : bool :=
          (fnmatch pat' s ||
           match s with String _ s' => star s' | EmptyString => false end)%bool
      else
        fun s =>
          match s with
          | String d s' => (Ascii.eqb c d && fnmatch pat' s')%bool
          | EmptyString => false
          end
  end.

(** The name of [p] inside directory [d], when [p] is an entry of [d]. *)
Definition entry_name (d p : string) : option string :=
  match Str.drop_prefix (d +:+ "/") p with
  | Some name =>
      if (negb (String.eqb name "") && Str.all_chars (fun c => negb (Str.is_slash c)) name)%bool
      then Some name else None
  | None => None
  end.

Definition glob_match (d pattern p : string) : bool :=
  match entry_name d p with
  | Some name => fnmatch pattern name
  | None => false
  end.

(** [Path(d).glob(pattern)]: the entries of [d] whose name matches. *)
Definition glob (d pattern : string) : M (list string) := fun w =>
  (Return (filter (fun p => glob_match d pattern p = true) (map_to_list (fs w)).*1), w).

(** [Path(p).stat().st_mtime] *)
Definition stat_mtime (p : string) : M Q := fun w =>
  match fs w !! p with
  | Some n => (Return (st_mtime n), w)
  | None => (Raise FileNotFoundError, w)
  end.

(** [Path(p).unlink()] *)
Definition unlink (p : string) : M unit := fun w =>
  let w := log_syscall (SysUnlink p) w in
  match fs w !! p with
  | Some (File _ None) => (Return tt, set_fs (delete p) w)
  | Some (File _ (Some e)) => (Raise e, w)
  | Some (Dir _) => (Raise IsADirectoryError, w)
  | None => (Raise FileNotFoundError, w)
  end.

(** [open(p, 'a')]: the file is created when it is absent and its
    directory exists; an existing file is left as it is. *)
Definition open_append (p : string) : M unit := fun w =>
  let w := log_syscall (SysOpen p "a") w in
  match fs w !! p with
  | Some (File _ _) => (Return tt, w)
  | Some (Dir _) => (Raise IsADirectoryError, w)
  | None =>
      if (String.eqb (dirname p) "" || is_dir (fs w !! dirname p))%bool
      then (Return tt, set_fs (insert p (File (clock w) None)) w)
      else (Raise FileNotFoundError, w)
  end.

End OS.

(** ** [datetime] *)

Record datetime : Type := mkDatetime {
  year : Z; month : Z; day : Z;
  hour : Z; minute : Z; second : Z;
  microsecond : Z;
}.

Module Datetime.

(** [round(q)]: to the nearest integer, ties to even. *)
Definition round_half_even (q : Q) : Z :=
  let f := Qfloor q in
  match Qcompare (q - inject_Z f) (1 # 2) with
  | Lt => f
  | Gt => f + 1
  | Eq => if Z.even f then f else f + 1
  end.

(** Proleptic Gregorian date of a day count from 1970-01-01. *)
Definition civil_from_days (days : Z) : Z * Z * Z :=
  let z := days + 719468 in
  let era := z / 146097 in
  let doe := z - era * 146097 in
  let yoe := (doe - doe / 1460 + doe / 36524 - doe / 146096) / 365 in
  let doy := doe - (365 * yoe + yoe / 4 - yoe / 100) in
  let mp := (5 * doy + 2) / 153 in
  let d := doy - (153 * mp + 2) / 5 + 1 in
  let m := if mp <? 10 then mp + 3 else mp - 9 in
  let y := yoe + era * 400 + (if m <=? 2 then 1 else 0) in
  (y, m, d).

(** [datetime.fromtimestamp(t)]: [t] is rounded to the microsecond and
    shifted to local time. *)
Definition fromtimestamp (offset : Z) (t : Q) : datetime :=
  let us := round_half_even (t * inject_Z 1000000) in
  let secs := us / 1000000 + offset in
  let '(y, m, d) := civil_from_days (secs / 86400) in
  let sod := secs mod 86400 in
  mkDatetime y m d (sod / 3600) (sod mod 3600 / 60) (sod mod 60) (us mod 1000000).

(** [datetime.now()] *)
Definition now : M datetime := fun w =>
  (Return (fromtimestamp (utcoffset w) (clock w)), w).

Definition directive (d : ascii) (dt : datetime) : string :=
  if Ascii.eqb d "Y" then Str.format_d 4 (year dt)
  else if Ascii.eqb d "m" then Str.format_d 2 (month dt)
  else if Ascii.eqb d "d" then Str.format_d 2 (day dt)
  else if Ascii.eqb d "H" then Str.format_d 2 (hour dt)
  else if Ascii.eqb d "M" then Str.format_d 2 (minute dt)
  else if Ascii.eqb d "S" then Str.format_d 2 (second dt)
  else if Ascii.eqb d "%" then "%"
  else String "%" (String d EmptyString).

(** [dt.strftime(format)] for the directives [%Y %m %d %H %M %S %%]. *)
Fixpoint strftime (format : string) (dt : datetime) : string :=
  match format with
  | String c rest =>
      if Ascii.eqb c "%" then
        match rest with
        | String d rest' => directive d dt +:+ strftime rest' dt
        | EmptyString => String c EmptyString
        end
      else String c (strftime rest dt)
  | EmptyString => EmptyString
  end.

End Datetime.

(** ** The [logging] package *)

(** [logging.LogRecord].  [message] is the result of [getMessage()];
    [levelname_short] is the attribute that [CustomFormatter.format]
    adds.  [exc_info], when there is one, is held as the text that
    [formatException] renders for it; [exc_text] and [stack_info] are the
    attributes of these names, [None] or a text. *)
Record LogRecord : Type := mkLogRecord {
  levelname : string;
  created : Q;
  msecs : Q;
  message : string;
  levelname_short : option string;
  exc_info : option string;
  exc_text : option string;
  stack_info : option string;
}.

Module Logging.

Definition NOTSET : Z := 0.
Definition DEBUG : Z := 10.
Definition INFO : Z := 20.
Definition WARNING : Z := 30.
Definition ERROR : Z := 40.
Definition CRITICAL : Z := 50.

(** The registry key of [logging.getLogger(name)]: no name, or an empty
    one, is the root logger. *)
Definition logger_key (name : option string) : string :=
  match name with
  | Some n => if String.eqb n "" then "root" else n
  | None => "root"
  end.

Definition new_logger (key : string) : Logger :=
  mkLogger (if String.eqb key "root" then WARNING else NOTSET) [] true.

(** [logging.getLogger(name)]: the logger registered under the name,
    created on first use.  The result is a reference into the registry. *)
Definition getLogger (name : option string) : M string := fun w =>
  let key := logger_key name in
  match loggers w !! key with
  | Some _ => (Return key, w)
  | None => (Return key, set_loggers (insert key (new_logger key)) w)
  end.

Definition update (logger : string) (f : Logger -> Logger) : M unit :=
  modify (set_loggers (alter f logger)).

(** [logger.setLevel(lvl)] *)
Definition setLevel (logger : string) (lvl : Z) : M unit :=
  update logger (fun l => mkLogger lvl (handlers l) (propagate l)).

(** [logger.handlers] *)
Definition get_handlers (logger : string) : M (list Handler) := fun w =>
  (Return (match loggers w !! logger with Some l => handlers l | None => [] end), w).

(** [logger.handlers.clear()] *)
Definition clear_handlers (logger : string) : M unit :=
  update logger (fun l => mkLogger (level l) [] (propagate l)).

(** [logger.addHandler(h)] for a handler object just built. *)
Definition addHandler (logger : string) (h : Handler) : M unit :=
  update logger (fun l => mkLogger (level l) (handlers l ++ [h]) (propagate l)).

(** [logger.propagate = b] *)
Definition set_propagate (logger : string) (b : bool) : M unit :=
  update logger (fun l => mkLogger (level l) (handlers l) b).

(** [logging.StreamHandler()] *)
Definition StreamHandler : Handler := mkHandler Console NOTSET None.

(** [logging.FileHandler(filename, mode, encoding)]: the file is opened
    at once.  Only the append mode of the module is modelled. *)
Definition FileHandler (filename mode encoding : string) : M Handler :=
  OS.open_append filename ;;;
  ret (mkHandler (FileSink filename mode encoding) NOTSET None).

(** [handler.setLevel(lvl)] and [handler.setFormatter(f)] *)
Definition Handler_setLevel (h : Handler) (lvl : Z) : Handler :=
  mkHandler (h_sink h) lvl (h_formatter h).
Definition Handler_setFormatter (h : Handler) (f : Formatter) : Handler :=
  mkHandler (h_sink h) (h_level h) (Some f).

(** [dict.get(key, default)] on an association list. *)
Fixpoint dict_get {V} (d : list (string * V)) (key : string) (default : V) : V :=
  match d with
  | (k, v) :: d' => if String.eqb k key then v else dict_get d' key default
  | [] => default
  end.

Fixpoint dict_lookup {V} (d : list (string * V)) (key : string) : outcome V :=
  match d with
  | (k, v) :: d' => if String.eqb k key then Return v else dict_lookup d' key
  | [] => Raise KeyError
  end.

(** States of the scanner of a [%]-style template. *)
Inductive pstate : Type :=
| Text
| Percent
| Key (acc : string)
| Conv (key : string).

(** [template % d] for templates made of text, [%%] and [%(key)s]. *)
Fixpoint percent_format (st : pstate) (template : string)
    (d : list (string * string)) : outcome string :=
  match template with
  | String c rest =>
      match st with
      | Text =>
          if Ascii.eqb c "%" then percent_format Percent rest d
          else match percent_format Text rest d with
               | Return s => Return (String c s)
               | Raise e => Raise e
               end
      | Percent =>
          if Ascii.eqb c "(" then percent_format (Key "") rest d
          else if Ascii.eqb c "%" then
            match percent_format Text rest d with
            | Return s => Return (String c s)
            | Raise e => Raise e
            end
          else Raise ValueError
      | Key acc =>
          if Ascii.eqb c ")" then percent_format (Conv acc) rest d
          else percent_format (Key (acc +:+ String c "")) rest d
      | Conv key =>
          if Ascii.eqb c "s" then
            match dict_lookup d key, percent_format Text rest d with
            | Return v, Return s => Return (v +:+ s)
            | Raise e, _ => Raise e
            | _, Raise e => Raise e
            end
          else Raise ValueError
      end
  | EmptyString =>
      match st with
      | Text => Return ""
      | _ => Raise ValueError
      end
  end.

(** [record.__dict__], restricted to the attributes a template can name. *)
Definition record_dict (asctime : string) (record : LogRecord) : list (string * string) :=
  [("asctime", asctime); ("levelname", levelname record); ("message", message record)]
  ++ match levelname_short record with
     | Some s => [("levelname_short", s)]
     | None => []
     end.

(** Truth value of an attribute that is [None] or a text. *)
Definition has_text (t : option string) : bool :=
  match t with Some (String _ _) => true | _ => false end.

(** [if s[-1:] != "\n": s = s + "\n"] and then [s = s + block] *)
Definition on_new_line (s block : string) : string :=
  (if bool_decide (Str.last_char s = Some "010"%char) then s
   else s +:+ String "010" "") +:+ block.

(** The end of [logging.Formatter.format]: the text of the exception,
    cached in [exc_text] or rendered from [exc_info], and the stack
    information are appended to the formatted message [s]. *)
Definition add_details (record : LogRecord) (s : string) : string :=
  let exc_text :=
    match exc_info record with
    | Some rendered => if has_text (exc_text record) then exc_text record else Some rendered
    | None => exc_text record
    end in
  let s := if has_text exc_text then on_new_line s (default "" exc_text) else s in
  if has_text (stack_info record) then on_new_line s (default "" (stack_info record)) else s.

(** [logging.Formatter.format(record)], given the method [formatTime] of
    the instance.  The time is rendered whether the template names
    [asctime] or not, which the result cannot tell. *)
Definition Formatter_format (formatTime : LogRecord -> option string -> M string)
    (self : Formatter) (record : LogRecord) : M string :=
  asctime <- formatTime record (datefmt self);;
  s <- (fun w => (percent_format Text (fmt self) (record_dict asctime record), w));;
  ret (add_details record s).

End Logging.

(** ** [csa/utils/logger.py] *)

(** [a < b] on timestamps. *)
Definition Qltb (a b : Q) : bool := negb (Qle_bool b a).

(** [int(q)]: truncation towards zero. *)
Definition int_of_Q (q : Q) : Z := Qnum q ÷ Z.pos (Qden q).

Definition cleanup_old_logs (log_dir : string) (days : option Z) : M unit :=
  let days := match days with Some d => d | None => 7 end in
  present <- OS.path_exists log_dir;;
  if negb present then ret tt
  else
    current_time <- OS.time;;
    let cutoff_time := (current_time - inject_Z (days * 24 * 60 * 60))%Q in
    log_files <- OS.glob log_dir "*.log";;
    for_each log_files (fun log_file =>
      mtime <- OS.stat_mtime log_file;;
      if Qltb mtime cutoff_time
      then try_pass (OS.unlink log_file)
      else ret tt).

Module CustomFormatter.

Definition LEVEL_MAP : list (string * string) :=
  [("DEBUG", "D"); ("INFO", "I"); ("WARNING", "W"); ("ERROR", "E"); ("CRITICAL", "C")].

(** [formatTime(self, record, datefmt=None)] *)
Definition formatTime (record : LogRecord) (datefmt : option string) : M string := fun w =>
  let ct := Datetime.fromtimestamp (utcoffset w) (created record) in
  let s :=
    match datefmt with
    | Some f => if String.eqb f "" then Datetime.strftime "%Y-%m-%d %H:%M:%S" ct
                else Datetime.strftime f ct
    | None => Datetime.strftime "%Y-%m-%d %H:%M:%S" ct
    end in
  let s := s +:+ "." +:+ Str.format_d 3 (int_of_Q (msecs record)) in
  (Return s, w).

(** [record.levelname[0]] *)
Definition first_char (s : string) : M string :=
  match Str.head s with
  | Some c => ret c
  | None => raise IndexError
  end.

(** [format(self, record)]: the fallback [record.levelname[0]] is an
    argument of [get] and is evaluated before the lookup. *)
Definition format (self : Formatter) (record : LogRecord) : M string :=
  fallback <- first_char (levelname record);;
  let short := Logging.dict_get LEVEL_MAP (levelname record) fallback in
  let record :=
    mkLogRecord (levelname record) (created record) (msecs record)
                (message record) (Some short)
                (exc_info record) (exc_text record) (stack_info record) in
  Logging.Formatter_format formatTime self record.

End CustomFormatter.

(** The dictionary [log_levels] of [setup_logger]. *)
Definition log_levels : gmap string Z :=
  <["DEBUG" := Logging.DEBUG]> (<["INFO" := Logging.INFO]>
  (<["WARNING" := Logging.WARNING]> (<["ERROR" := Logging.ERROR]>
  (<["CRITICAL" := Logging.CRITICAL]> ∅)))).

Definition setup_logger (name command_name : option string) : M string :=
  raw <- OS.getenv "LOG_LEVEL" "INFO";;
  let log_level_str := Str.upper (Str.strip raw) in
  let log_level :=
    match log_levels !! log_level_str with
    | Some lvl => lvl
    | None => Logging.INFO
    end in
  logger <- Logging.getLogger name;;
  Logging.setLevel logger log_level;;;
  hs <- Logging.get_handlers logger;;
  (match hs with
   | _ :: _ => Logging.clear_handlers logger
   | [] => ret tt
   end);;;
  let console_handler := Logging.StreamHandler in
  let console_handler := Logging.Handler_setLevel console_handler log_level in
  let formatter :=
    mkFormatter "%(asctime)s [%(levelname_short)s] : %(message)s"
                (Some "%Y-%m-%d %H:%M:%S") in
  let console_handler := Logging.Handler_setFormatter console_handler formatter in
  Logging.addHandler logger console_handler;;;
  (match command_name with
   | Some (String _ _ as command_name) =>
       let log_dir := "logs" in
       OS.makedirs log_dir true;;;
       cleanup_old_logs log_dir (Some 7);;;
       today <- Datetime.now;;
       let log_date := Datetime.strftime "%Y%m%d" today in
       let log_filename := command_name +:+ "-" +:+ log_date +:+ ".log" in
       let log_filepath := OS.path_join log_dir log_filename in
       file_handler <- Logging.FileHandler log_filepath "a" "utf-8";;
       let file_handler := Logging.Handler_setLevel file_handler log_level in
       let file_handler := Logging.Handler_setFormatter file_handler formatter in
       Logging.addHandler logger file_handler
   | Some EmptyString | None => ret tt
   end);;;
  Logging.set_propagate logger false;;;
  ret logger.

Definition get_logger (name command_name : option string) : M string :=
  setup_logger name command_name.

(** * Vocabulary of the properties *)

(** The threshold that [setup_logger] selects for a raw value of
    [LOG_LEVEL]. *)
Definition resolve_level (raw : string) : Z :=
  let log_level_str := Str.upper (Str.strip raw) in
  match log_levels !! log_level_str with
  | Some lvl => lvl
  | None => Logging.INFO
  end.

(** The formatter that [setup_logger] builds. *)
Definition the_formatter : Formatter :=
  mkFormatter "%(asctime)s [%(levelname_short)s] : %(message)s" (Some "%Y-%m-%d %H:%M:%S").

(** The retention window of a call, seven days when none is given. *)
Definition retention (days : option Z) : Z :=
  match days with Some d => d | None => 7 end.

(** The five level names and the thresholds they stand for. *)
Definition standard_levels : list (string * Z) :=
  [("DEBUG", 10); ("INFO", 20); ("WARNING", 30); ("ERROR", 40); ("CRITICAL", 50)].

(** A run of white-space characters. *)
Inductive white : string -> Prop :=
  | white_nil : white ""
  | white_app c s : Str.is_space c = true -> white s -> white (c +:+ s).

(** [v] is the name [N] up to surrounding white space and letter case,
    where two words are the same up to case when their upper cases are
    the same. *)
Definition names_level (v N : string) : Prop :=
  exists pre core post,
    v = pre +:+ core +:+ post /\ white pre /\ white post /\ Str.upper core = N.

(** The cutoff of a retention window of [days] days at time [now]. *)
Definition cutoff_time (now : Q) (days : Z) : Q :=
  (now - inject_Z (days * 24 * 60 * 60))%Q.

Definition expired (cutoff : Q) (n : node) : bool := Qltb (st_mtime n) cutoff.

(** [unlink] succeeds on the entry. *)
Definition unlinkable (n : node) : bool :=
  match n with File _ None => true | _ => false end.

(** One round of the loop of [cleanup_old_logs]. *)
Definition reap (cutoff : Q) (log_file : string) : M unit :=
  mtime <- OS.stat_mtime log_file;;
  if Qltb mtime cutoff then try_pass (OS.unlink log_file) else ret tt.

(** The parts of the world that the file operations leave alone. *)
Definition same_process (w w' : World) : Prop :=
  environ w' = environ w /\ clock w' = clock w /\
  utcoffset w' = utcoffset w /\ loggers w' = loggers w.

Definition is_expired (cutoff : Q) (m : gmap string node) (p : string) : bool :=
  match m !! p with Some n => expired cutoff n | None => false end.

(** The paths that one call of [cleanup_old_logs] tries to delete. *)
Definition candidates (log_dir : string) (days : Z) (w : World) : list string :=
  match fs w !! log_dir with
  | Some _ =>
      filter (fun p => is_expired (cutoff_time (clock w) days) (fs w) p = true)
        (filter (fun p => OS.glob_match log_dir "*.log" p = true) (map_to_list (fs w)).*1)
  | None => []
  end.

Definition console_handler_of (lvl : Z) : Handler :=
  mkHandler Console lvl (Some the_formatter).

Definition file_handler_of (path : string) (lvl : Z) : Handler :=
  mkHandler (FileSink path "a" "utf-8") lvl (Some the_formatter).

(** The threshold that the environment of [w] selects. *)
Definition env_level (w : World) : Z :=
  resolve_level (match environ w !! "LOG_LEVEL" with Some v => v | None => "INFO" end).

(** The logger registered under [key], or the one [getLogger] would create. *)
Definition logger_at (key : string) (w : World) : Logger :=
  match loggers w !! key with Some l => l | None => Logging.new_logger key end.

(** The world once the console handler is attached. *)
Definition console_world (name : option string) (w : World) : World :=
  let key := Logging.logger_key name in
  set_loggers
    (insert key (mkLogger (env_level w) [console_handler_of (env_level w)]
                          (propagate (logger_at key w)))) w.

(** The local date [YYYYMMDD] of the clock of [w]. *)
Definition today (w : World) : string :=
  Datetime.strftime "%Y%m%d" (Datetime.fromtimestamp (utcoffset w) (clock w)).

(** The path that [setup_logger] opens for command [c]. *)
Definition log_path (c : string) (w : World) : string :=
  OS.path_join "logs" (c +:+ "-" +:+ today w +:+ ".log").

(** A command identifier that [if command_name:] accepts. *)
Definition truthy (command_name : option string) : bool :=
  match command_name with
  | Some (String _ _) => true
  | _ => false
  end.

(** The branch of [setup_logger] that attaches the file handler. *)
Definition attach_file_handler (logger : string) (log_level : Z) (command_name : string)
  : M unit :=
  let log_dir := "logs" in
  OS.makedirs log_dir true;;;
  cleanup_old_logs log_dir (Some 7);;;
  today <- Datetime.now;;
  let log_date := Datetime.strftime "%Y%m%d" today in
  let log_filename := command_name +:+ "-" +:+ log_date +:+ ".log" in
  let log_filepath := OS.path_join log_dir log_filename in
  file_handler <- Logging.FileHandler log_filepath "a" "utf-8";;
  let file_handler := Logging.Handler_setLevel file_handler log_level in
  let file_handler := Logging.Handler_setFormatter file_handler the_formatter in
  Logging.addHandler logger file_handler.

(** [setup_logger] from the console handler on. *)
Definition finish_setup (logger : string) (log_level : Z) (command_name : option string)
  : M string :=
  (match command_name with
   | Some (String _ _ as command_name) => attach_file_handler logger log_level command_name
   | Some EmptyString | None => ret tt
   end);;;
  Logging.set_propagate logger false;;;
  ret logger.

(** [open(p, 'a')] succeeds on the file system [m]. *)
Definition can_open (m : gmap string node) (p : string) : bool :=
  match m !! p with
  | Some (File _ _) => true
  | Some (Dir _) => false
  | None => (String.eqb (OS.dirname p) "" || is_dir (m !! OS.dirname p))%bool
  end.

(** Sinks of a kind among the handlers of a logger. *)
Definition is_console (h : Handler) : bool :=
  match h_sink h with Console => true | FileSink _ _ _ => false end.

Definition is_file (h : Handler) : bool :=
  match h_sink h with Console => false | FileSink _ _ _ => true end.

Definition count_sinks (kind : Handler -> bool) (hs : list Handler) : nat :=
  length (List.filter kind hs).

(** The world after a series of calls of [setup_logger] for one name,
    whether they return or raise. *)
Fixpoint setup_logger_repeatedly (name : option string) (commands : list (option string))
    (w : World) : World :=
  match commands with
  | [] => w
  | command_name :: rest =>
      setup_logger_repeatedly name rest (snd (setup_logger name command_name w))
  end.


(** [YYYY-MM-DD HH:MM:SS.mmm] for a local time and a count of milliseconds. *)
Definition timestamp (dt : datetime) (ms : Z) : string :=
  Str.format_d 4 (year dt) +:+ "-" +:+ Str.format_d 2 (month dt) +:+ "-" +:+
  Str.format_d 2 (day dt) +:+ " " +:+ Str.format_d 2 (hour dt) +:+ ":" +:+
  Str.format_d 2 (minute dt) +:+ ":" +:+ Str.format_d 2 (second dt) +:+ "." +:+
  Str.format_d 3 ms.


(** The local time at which a record was created. *)
Definition local_time (w : World) (record : LogRecord) : datetime :=
  Datetime.fromtimestamp (utcoffset w) (created record).



(** A directory with a fresh log, two stale ones (one of which cannot be
    deleted), a stale directory and a stale file of another kind, on
    2024-01-15 10:30:00 UTC. *)
Definition sample_world : World :=
  mkWorld
    (<["LOG_LEVEL" := " debug "]> ∅)
    (<["logs" := Dir 0]>
     (<["logs/old.log" := File 0 None]>
     (<["logs/held.log" := File 0 (Some PermissionError)]>
     (<["logs/new.log" := File (1705314000 # 1) None]>
     (<["logs/edge.log" := File (1704709800 # 1) None]>
     (<["logs/old.txt" := File 0 None]>
     (<["logs/sub.log" := Dir 0]> ∅)))))))
    (1705314600 # 1) 0 ∅ [].

(** Closed goals are settled by evaluation. *)
Ltac by_computation := vm_compute; reflexivity.

(** * Lemmas *)

(** ** Strings *)

Module StrFacts.
Import Str.

Lemma append_cons c s t : String c s +:+ t = String c (s +:+ t).
Proof. reflexivity. Qed.

Lemma append_nil_l t : "" +:+ t = t.
Proof. reflexivity. Qed.

Lemma append_nil_r s : s +:+ "" = s.
Proof. induction s as [|c s IH]; [reflexivity|now rewrite append_cons, IH]. Qed.

Lemma append_assoc a b c : (a +:+ b) +:+ c = a +:+ (b +:+ c).
Proof. induction a as [|x a IH]; [reflexivity|now rewrite !append_cons, IH]. Qed.

Lemma all_chars_map P g s :
  all_chars P (map_chars g s) = all_chars (fun c => P (g c)) s.
Proof. induction s as [|c s IH]; simpl; [reflexivity|now rewrite IH]. Qed.

Lemma all_chars_ext P Q s :
  (forall c, P c = Q c) -> all_chars P s = all_chars Q s.
Proof. intros E. induction s as [|c s IH]; simpl; [reflexivity|now rewrite E, IH]. Qed.

Lemma is_space_In c : is_space c = true -> In c spaces.
Proof.
  unfold is_space. intros (x & Hx & E)%existsb_exists.
  apply String.eqb_eq in E as ->. exact Hx.
Qed.

Lemma lstrip_space c s : is_space c = true -> lstrip (c +:+ s) = lstrip s.
Proof.
  intros H%is_space_In. unfold spaces in H. cbn in H.
  repeat (destruct H as [<-|H]; [reflexivity|]). destruct H.
Qed.

Lemma lstrip_white pre s : white pre -> lstrip (pre +:+ s) = lstrip s.
Proof.
  induction 1 as [|c pre Hc _ IH]; [reflexivity|].
  now rewrite append_assoc, lstrip_space.
Qed.

Lemma rstrip_space c : is_space c = true -> rstrip c = "".
Proof.
  intros H%is_space_In. unfold spaces in H. cbn in H.
  repeat (destruct H as [<-|H]; [vm_compute; reflexivity|]). destruct H.
Qed.

Lemma rstrip_app s post : rstrip post = "" -> rstrip (s +:+ post) = rstrip s.
Proof.
  intros H. induction s as [|a s IH]; [exact H|].
  rewrite append_cons. cbn [rstrip]. now rewrite IH.
Qed.

Lemma rstrip_white post : white post -> rstrip post = "".
Proof.
  induction 1 as [|c post Hc _ IH]; [reflexivity|].
  rewrite (rstrip_app c post IH). now apply rstrip_space.
Qed.

(** What [rstrip] removes is a run of white space. *)
Lemma rstrip_split s : exists post, s = rstrip s +:+ post /\ white post.
Proof.
  induction s as [|a s (post & E & H)]; [exists ""; split; [reflexivity|constructor]|].
  cbn [rstrip]. destruct (is_space (String a (rstrip s))) eqn:Hs.
  - exists (String a (rstrip s) +:+ post). split.
    + rewrite append_nil_l, append_cons. now rewrite <- E.
    + now constructor.
  - exists post. split; [|exact H]. rewrite append_cons. now rewrite <- E.
Qed.

Lemma string_length_ind (P : string -> Prop) :
  (forall s, (forall t, (String.length t < String.length s)%nat -> P t) -> P s) ->
  forall s, P s.
Proof.
  intros H s. remember (String.length s) as n eqn:E. revert s E.
  induction n as [n IH] using lt_wf_ind. intros s ->. apply H.
  intros t Ht. now apply (IH (String.length t)).
Qed.

(** What [lstrip] removes is a run of white space. *)
Lemma lstrip_split s : exists pre, s = pre +:+ lstrip s /\ white pre.
Proof.
  induction s as [s IH] using string_length_ind.
  assert (Hnone : exists pre, s = pre +:+ s /\ white pre)
    by (exists ""; split; [reflexivity|constructor]).
  destruct s as [|a s1]; [exact Hnone|]. cbn [lstrip].
  destruct (is_space (String a "")) eqn:H1.
  { destruct (IH s1) as (pre & E & H); [simpl; lia|].
    exists (String a "" +:+ pre). split; [|now constructor].
    rewrite append_assoc, <- E. reflexivity. }
  destruct s1 as [|b s2]; [exact Hnone|].
  destruct (is_space (String a (String b ""))) eqn:H2.
  { destruct (IH s2) as (pre & E & H); [simpl; lia|].
    exists (String a (String b "") +:+ pre). split; [|now constructor].
    rewrite append_assoc, <- E. reflexivity. }
  destruct s2 as [|c s3]; [exact Hnone|].
  destruct (is_space (String a (String b (String c "")))) eqn:H3; [|exact Hnone].
  destruct (IH s3) as (pre & E & H); [simpl; lia|].
  exists (String a (String b (String c "")) +:+ pre). split; [|now constructor].
  rewrite append_assoc, <- E. reflexivity.
Qed.

End StrFacts.

Module UpperFacts.
Import Str StrFacts.

Lemma is_space_head a s : lead a = false -> is_space (String a s) = false.
Proof.
  destruct a as [[] [] [] [] [] [] [] []]; intros H; try discriminate H; reflexivity.
Qed.

Lemma lstrip_head a s : lead a = false -> lstrip (String a s) = String a s.
Proof.
  intros H. cbn [lstrip]. rewrite (is_space_head a "" H).
  destruct s as [|b s2]; [reflexivity|]. rewrite (is_space_head a _ H).
  destruct s2 as [|c s3]; [reflexivity|]. now rewrite (is_space_head a _ H).
Qed.

Lemma rstrip_safe s : all_chars (fun a => negb (lead a)) s = true -> rstrip s = s.
Proof.
  induction s as [|a s IH]; [reflexivity|]. cbn [all_chars rstrip].
  intros [Ha Hs]%andb_true_iff. apply negb_true_iff in Ha.
  now rewrite (IH Hs), (is_space_head a s Ha).
Qed.

Lemma upper_char_safe a : is_upper (upper_char a) = true -> lead a = false.
Proof.
  destruct a as [[] [] [] [] [] [] [] []]; intros H; try discriminate H; reflexivity.
Qed.

Lemma assoc_In l k v : assoc l k = Some v -> In (k, v) l.
Proof.
  induction l as [|[k' v'] l IH]; [discriminate|]. cbn [assoc].
  destruct (String.eqb_spec k' k) as [->|_].
  - intros [= ->]. now left.
  - intros H. right. now apply IH.
Qed.

Lemma upper_cons2 a b s2 :
  upper (String a (String b s2)) =
  match assoc upper_special (String a (String b "")) with
  | Some u => u +:+ upper s2
  | None =>
      match s2 with
      | String c s3 =>
          match assoc upper_special (String a (String b (String c ""))) with
          | Some u => u +:+ upper s3
          | None => String (upper_char a) (upper (String b s2))
          end
      | EmptyString => String (upper_char a) (upper (String b s2))
      end
  end.
Proof. reflexivity. Qed.

Lemma all_chars_append f a b :
  all_chars f (a +:+ b) = (all_chars f a && all_chars f b)%bool.
Proof.
  induction a as [|c a IH]; [reflexivity|].
  rewrite append_cons. cbn [all_chars]. now rewrite IH, andb_assoc.
Qed.

(** A string whose upper case is made of the letters A to Z holds no
    byte that begins a white-space character. *)
Lemma upper_safe s :
  all_chars is_upper (upper s) = true ->
  all_chars (fun a => negb (lead a)) s = true.
Proof.
  induction s as [s IH] using string_length_ind.
  destruct s as [|a [|b s2]]; [reflexivity| |].
  - cbn [upper all_chars]. rewrite !andb_true_r. intros H.
    now rewrite (upper_char_safe a H).
  - assert (Hone : all_chars is_upper (String (upper_char a) (upper (String b s2))) = true ->
             all_chars (fun a => negb (lead a)) (String a (String b s2)) = true).
    { cbn [all_chars]. intros [Ha Hs]%andb_true_iff.
      rewrite (upper_char_safe a Ha). apply (IH (String b s2)); [simpl; lia|exact Hs]. }
    rewrite upper_cons2.
    destruct (assoc upper_special (String a (String b ""))) as [u|] eqn:E2.
    + apply assoc_In in E2. unfold upper_special in E2. cbn in E2.
      repeat (destruct E2 as [E2|E2];
              [injection E2 as <- <- <-; rewrite all_chars_append;
               intros [_ Hs]%andb_true_iff;
               cbn [all_chars]; apply (IH s2); [simpl; lia|exact Hs]
              |]);
      try (destruct E2 as [E2|E2]; [discriminate E2|]); contradiction.
    + destruct s2 as [|c s3]; [exact Hone|].
      destruct (assoc upper_special (String a (String b (String c "")))) as [u|] eqn:E3;
        [|exact Hone].
      apply assoc_In in E3. unfold upper_special in E3. cbn in E3.
      repeat (destruct E3 as [E3|E3]; [discriminate E3|]).
      repeat (destruct E3 as [E3|E3];
              [injection E3 as <- <- <- <-; rewrite all_chars_append;
               intros [_ Hs]%andb_true_iff;
               cbn [all_chars]; apply (IH s3); [simpl; lia|exact Hs]
              |]).
      contradiction.
Qed.

(** Stripping a word wrapped in white space gives the word back, when
    the upper case of the word is made of letters. *)
Lemma strip_wrapped pre core post :
  white pre -> white post ->
  upper core <> "" -> all_chars is_upper (upper core) = true ->
  strip (pre +:+ core +:+ post) = core.
Proof.
  intros Hpre Hpost Hne Hup. apply upper_safe in Hup.
  unfold strip. rewrite lstrip_white by assumption.
  destruct core as [|a core]; [now destruct Hne|].
  pose proof Hup as Ha. cbn [all_chars] in Ha.
  apply andb_true_iff in Ha as [Ha _]. apply negb_true_iff in Ha.
  rewrite append_cons, (lstrip_head a _ Ha), <- append_cons.
  rewrite (rstrip_app _ post (rstrip_white post Hpost)).
  now apply rstrip_safe.
Qed.

End UpperFacts.


(** ** Resolution of [LOG_LEVEL] *)

Module LevelFacts.
Import Str StrFacts UpperFacts.

Lemma log_levels_lookup s lvl :
  log_levels !! s = Some lvl -> In (s, lvl) standard_levels.
Proof.
  unfold log_levels. intros E.
  repeat (apply lookup_insert_Some in E as [[<- <-]|[_ E]]; [simpl; tauto|]).
  now rewrite lookup_empty in E.
Qed.

Lemma standard_levels_lookup N lvl :
  In (N, lvl) standard_levels ->
  log_levels !! N = Some lvl /\ N <> "" /\ all_chars is_upper N = true /\
  ascii_upper (ascii_lower N) = N /\ all_chars is_ascii (ascii_lower N) = true.
Proof.
  simpl. intros [E|[E|[E|[E|[E|[]]]]]]; inversion E; subst;
    (split; [vm_compute; reflexivity|]); (split; [discriminate|]);
    repeat split; vm_compute; reflexivity.
Qed.

Lemma resolve_level_valid v N lvl :
  In (N, lvl) standard_levels -> names_level v N -> resolve_level v = lvl.
Proof.
  intros HN (pre & core & post & -> & Hpre & Hpost & Hcore).
  destruct (standard_levels_lookup N lvl HN) as (Hl & Hne & Hup & _).
  unfold resolve_level.
  rewrite strip_wrapped by (try assumption; now rewrite Hcore).
  now rewrite Hcore, Hl.
Qed.

Lemma names_level_strip v : names_level v (upper (strip v)).
Proof.
  destruct (lstrip_split v) as (pre & Ev & Hpre).
  destruct (rstrip_split (lstrip v)) as (post & El & Hpost).
  exists pre, (strip v), post. repeat split; try assumption.
  unfold strip. now rewrite <- El.
Qed.

Lemma resolve_level_invalid v :
  (forall N lvl, In (N, lvl) standard_levels -> ~ names_level v N) ->
  resolve_level v = Logging.INFO.
Proof.
  intros H. unfold resolve_level.
  destruct (log_levels !! upper (strip v)) as [lvl|] eqn:E; [|reflexivity].
  exfalso. apply (H _ _ (log_levels_lookup _ _ E)), names_level_strip.
Qed.

Lemma upper_special_ascii a t :
  is_ascii a = true -> assoc upper_special (String a t) = None.
Proof.
  destruct a as [[] [] [] [] [] [] [] []]; intros H; try discriminate H; reflexivity.
Qed.

(** On a string of ASCII, [upper] turns the letters a to z into A to Z. *)
Lemma upper_ascii s : all_chars is_ascii s = true -> upper s = ascii_upper s.
Proof.
  induction s as [|a s IH]; [reflexivity|]. cbn [all_chars].
  intros [Ha Hs]%andb_true_iff. unfold ascii_upper in *. cbn [map_chars].
  rewrite <- (IH Hs). destruct s as [|b s2]; [reflexivity|].
  rewrite upper_cons2, (upper_special_ascii a _ Ha).
  destruct s2 as [|c s3]; [reflexivity|]. now rewrite (upper_special_ascii a _ Ha).
Qed.

Lemma is_ascii_lower c : is_ascii (lower_char c) = is_ascii c.
Proof. destruct c as [[] [] [] [] [] [] [] []]; reflexivity. Qed.

Lemma upper_lower_char c : upper_char (lower_char c) = upper_char c.
Proof. destruct c as [[] [] [] [] [] [] [] []]; reflexivity. Qed.

Lemma ascii_upper_lower s : ascii_upper (ascii_lower s) = ascii_upper s.
Proof.
  induction s as [|c s IH]; [reflexivity|].
  unfold ascii_upper, ascii_lower in *. cbn [map_chars]. now rewrite upper_lower_char, IH.
Qed.

(** A word that differs from a level name only in the case of its
    letters has the name as its upper case. *)
Lemma upper_same_letters core N lvl :
  In (N, lvl) standard_levels -> ascii_lower core = ascii_lower N -> upper core = N.
Proof.
  intros HN E. destruct (standard_levels_lookup N lvl HN) as (_ & _ & _ & Hup & Ha).
  assert (Hc : all_chars is_ascii core = true).
  { rewrite <- E in Ha. unfold ascii_lower in Ha. rewrite all_chars_map in Ha.
    rewrite <- Ha. apply all_chars_ext. intros c. now rewrite is_ascii_lower. }
  now rewrite (upper_ascii core Hc), <- ascii_upper_lower, E.
Qed.

End LevelFacts.

(** ** The stale-log reaper *)

Lemma Qltb_lt a b : Qltb a b = true <-> (a < b)%Q.
Proof.
  unfold Qltb. rewrite negb_true_iff, <- not_true_iff_false, Qle_bool_iff.
  split; [apply Qnot_le_lt|apply Qlt_not_le].
Qed.

Section Reaper.
Variable cutoff : Q.

Lemma reap_spec p n w :
  fs w !! p = Some n ->
  exists w',
    reap cutoff p w = (Return tt, w') /\ same_process w w' /\
    fs w' = (if expired cutoff n && unlinkable n then delete p (fs w) else fs w) /\
    syscalls w' = syscalls w ++ (if expired cutoff n then [SysUnlink p] else []).
Proof.
  intros E. unfold reap, bind, OS.stat_mtime, expired. rewrite E.
  destruct (Qltb (st_mtime n) cutoff); simpl.
  - unfold try_pass, OS.unlink. simpl. rewrite E.
    destruct n as [t [e|]|t]; simpl; eexists; (split; [reflexivity|]);
      repeat split; reflexivity.
  - eexists. split; [reflexivity|]. repeat split. now rewrite app_nil_r.
Qed.

Lemma filter_expired_ext (m m' : gmap string node) (l : list string) :
  (forall p, p ∈ l -> m' !! p = m !! p) ->
  filter (fun p => is_expired cutoff m' p = true) l =
  filter (fun p => is_expired cutoff m p = true) l.
Proof.
  induction l as [|x l IH]; intros H; [reflexivity|].
  assert (Ex : is_expired cutoff m' x = is_expired cutoff m x).
  { unfold is_expired. rewrite H by left. reflexivity. }
  assert (IH' : filter (fun p => is_expired cutoff m' p = true) l = filter (fun p => is_expired cutoff m p = true) l) by (apply IH; intros p Hp; apply H; now right).
  destruct (decide (is_expired cutoff m x = true)) as [Hx|Hx].
  - rewrite !filter_cons_True by congruence. now rewrite IH'.
  - rewrite !filter_cons_False by congruence. assumption.
Qed.

(** The loop visits every listed path once; an entry is removed exactly
    when it is listed, expired and its deletion succeeds. *)
Lemma reap_all_spec (l : list string) : forall w,
  NoDup l -> (forall p, p ∈ l -> is_Some (fs w !! p)) ->
  exists w',
    for_each l (reap cutoff) w = (Return tt, w') /\ same_process w w' /\
    (forall p, fs w' !! p =
       match fs w !! p with
       | Some n => if bool_decide (p ∈ l) && expired cutoff n && unlinkable n
                   then None else Some n
       | None => None
       end) /\
    syscalls w' = syscalls w ++
      (SysUnlink <$> filter (fun p => is_expired cutoff (fs w) p = true) l).
Proof.
  induction l as [|x l IH]; intros w Hnd Hin.
  - exists w. simpl. split; [reflexivity|]. split; [repeat split|].
    split; [|now rewrite app_nil_r].
    intros p. destruct (fs w !! p); reflexivity.
  - apply NoDup_cons in Hnd as [Hx Hnd].
    destruct (Hin x) as [n En]; [now left|].
    destruct (reap_spec x n w En) as (w1 & R1 & F1 & Hfs1 & Hs1).
    assert (Hother : forall p, p ≠ x -> fs w1 !! p = fs w !! p).
    { intros p Hp. rewrite Hfs1.
      destruct (expired cutoff n && unlinkable n); [|reflexivity].
      now apply lookup_delete_ne. }
    destruct (IH w1 Hnd) as (w' & R & F & Hfs & Hs).
    { intros p Hp. rewrite Hother; [apply Hin; now right|].
      intros ->. contradiction. }
    exists w'. split; [|split; [|split]].
    + simpl. unfold bind at 1. now rewrite R1.
    + destruct F1 as (?&?&?&?), F as (?&?&?&?). repeat split; congruence.
    + intros p. rewrite Hfs. destruct (decide (p = x)) as [->|Hp].
      * rewrite En, Hfs1.
        rewrite (bool_decide_eq_false_2 (x ∈ l)) by assumption.
        rewrite (bool_decide_eq_true_2 (x ∈ x :: l)) by left. simpl.
        destruct (expired cutoff n && unlinkable n).
        -- now rewrite lookup_delete_eq.
        -- now rewrite En.
      * rewrite Hother by assumption.
        destruct (fs w !! p) as [m|]; [|reflexivity].
        replace (bool_decide (p ∈ x :: l)) with (bool_decide (p ∈ l)); [reflexivity|].
        apply bool_decide_ext. rewrite elem_of_cons. tauto.
    + rewrite Hs, Hs1, <- app_assoc. f_equal.
      rewrite (filter_expired_ext (fs w) (fs w1))
        by (intros p Hp; apply Hother; intros ->; contradiction).
      assert (Ex : is_expired cutoff (fs w) x = expired cutoff n).
      { unfold is_expired. now rewrite En. }
      destruct (expired cutoff n) eqn:Hn.
      * rewrite filter_cons_True by assumption. reflexivity.
      * rewrite filter_cons_False by congruence. reflexivity.
Qed.

(** A listed path that is no longer there makes [stat] raise, outside
    the [try]. *)
Lemma reap_absent p w :
  fs w !! p = None -> reap cutoff p w = (Raise FileNotFoundError, w).
Proof. intros E. unfold reap, bind, OS.stat_mtime. now rewrite E. Qed.

(** The guarded deletion returns whatever [unlink] does. *)
Lemma try_pass_unlink p w :
  exists w',
    try_pass (OS.unlink p) w = (Return tt, w') /\ same_process w w' /\
    syscalls w' = syscalls w ++ [SysUnlink p] /\
    fs w' = match fs w !! p with
            | Some n => if unlinkable n then delete p (fs w) else fs w
            | None => fs w
            end.
Proof.
  unfold try_pass, OS.unlink. simpl.
  destruct (fs w !! p) as [[t [e|]|t]|]; simpl; eexists;
    (split; [reflexivity|]); repeat split; reflexivity.
Qed.

(** The loop raises only where [stat] does: on a listed path that is
    absent. *)
Lemma reap_all_raise (l : list string) : forall w e w',
  NoDup l -> for_each l (reap cutoff) w = (Raise e, w') ->
  e = FileNotFoundError /\ exists p, p ∈ l /\ fs w !! p = None.
Proof.
  induction l as [|x l IH]; intros w e w' Hnd H; [discriminate H|].
  apply NoDup_cons in Hnd as [Hx Hnd].
  simpl in H. unfold bind at 1 in H.
  destruct (fs w !! x) as [n|] eqn:En.
  - destruct (reap_spec x n w En) as (w1 & R1 & _ & Hfs1 & _).
    rewrite R1 in H. apply IH in H as [-> (p & Hp & Ea)]; [|exact Hnd].
    split; [reflexivity|]. exists p. split; [now right|].
    rewrite Hfs1 in Ea. destruct (expired cutoff n && unlinkable n); [|exact Ea].
    rewrite lookup_delete_ne in Ea; [exact Ea|]. intros <-. contradiction.
  - rewrite (reap_absent x w En) in H. injection H as <- _.
    split; [reflexivity|]. exists x. split; [left|exact En].
Qed.

End Reaper.

Lemma elem_of_keys (m : gmap string node) (p : string) :
  p ∈ (map_to_list m).*1 <-> is_Some (m !! p).
Proof.
  rewrite list_elem_of_fmap. split.
  - intros ([q n] & -> & H). apply elem_of_map_to_list in H. now exists n.
  - intros [n H]. exists (p, n). split; [reflexivity|]. now apply elem_of_map_to_list.
Qed.

Lemma elem_of_candidates log_dir days w p :
  p ∈ candidates log_dir days w <->
  is_Some (fs w !! log_dir) /\ OS.glob_match log_dir "*.log" p = true /\
  exists n, fs w !! p = Some n /\ expired (cutoff_time (clock w) days) n = true.
Proof.
  unfold candidates. destruct (fs w !! log_dir) as [d|] eqn:Ed.
  - rewrite !list_elem_of_filter, elem_of_keys. unfold is_expired. split.
    + intros (He & Hg & [n En]). rewrite En in He. eauto 6.
    + intros (_ & Hg & n & En & He). rewrite En. eauto.
  - split; [intros H; inversion H|]. intros ([? H] & _). discriminate.
Qed.

(** What a call of [cleanup_old_logs] does to the world. *)
Lemma cleanup_old_logs_spec log_dir days w :
  exists w',
    cleanup_old_logs log_dir days w = (Return tt, w') /\ same_process w w' /\
    (forall p, fs w' !! p =
       match fs w !! p with
       | Some n =>
           if bool_decide (p ∈ candidates log_dir (retention days) w) && unlinkable n
           then None else Some n
       | None => None
       end) /\
    syscalls w' = syscalls w ++ (SysUnlink <$> candidates log_dir (retention days) w).
Proof.
  unfold cleanup_old_logs, bind, OS.path_exists, candidates.
  destruct (fs w !! log_dir) as [d|] eqn:Ed; simpl.
  - set (l := filter (fun p => OS.glob_match log_dir "*.log" p = true) (map_to_list (fs w)).*1).
    destruct (reap_all_spec (cutoff_time (clock w) (retention days)) l w) as (w' & R & F & Hfs & Hs).
    { apply NoDup_filter, NoDup_fst_map_to_list. }
    { intros p [_ Hp]%list_elem_of_filter. now apply elem_of_keys. }
    exists w'. split; [exact R|]. split; [exact F|]. split; [|exact Hs].
    intros p. rewrite Hfs. destruct (fs w !! p) as [n|] eqn:En; [|reflexivity].
    destruct (decide (p ∈ l)) as [Hl|Hl].
    + rewrite (bool_decide_eq_true_2 _ Hl). simpl.
      destruct (expired (cutoff_time (clock w) (retention days)) n) eqn:He; simpl.
      * rewrite bool_decide_eq_true_2; [reflexivity|].
        apply list_elem_of_filter. split; [|assumption].
        unfold is_expired. now rewrite En.
      * rewrite bool_decide_eq_false_2; [reflexivity|].
        intros [H _]%list_elem_of_filter. unfold is_expired in H.
        rewrite En in H. congruence.
    + rewrite (bool_decide_eq_false_2 _ Hl). simpl.
      rewrite bool_decide_eq_false_2; [reflexivity|].
      intros [_ H]%list_elem_of_filter. contradiction.
  - exists w. split; [reflexivity|]. split; [repeat split|].
    split; [|now rewrite app_nil_r].
    intros p. destruct (fs w !! p); reflexivity.
Qed.

(** A pattern without [*] matches itself only. *)
Lemma fnmatch_literal pat :
  Str.all_chars (fun c => negb (Ascii.eqb c "*")) pat = true ->
  forall s, OS.fnmatch pat s = String.eqb pat s.
Proof.
  induction pat as [|c pat IH]; cbn [OS.fnmatch Str.all_chars].
  - intros _ [|? ?]; reflexivity.
  - intros [Hc H]%andb_true_iff. apply negb_true_iff in Hc. rewrite Hc.
    intros [|d s]; [reflexivity|]. cbn [String.eqb]. rewrite (IH H).
    now destruct (Ascii.eqb c d).
Qed.

(** The logging file pattern [*.log] selects the names that end in [.log]. *)
Lemma fnmatch_log name :
  OS.fnmatch "*.log" name = true <-> exists stem, name = stem +:+ ".log".
Proof.
  assert (Hlit : forall s, OS.fnmatch ".log" s = true <-> s = ".log").
  { intros s. rewrite fnmatch_literal by reflexivity. rewrite String.eqb_eq.
    split; congruence. }
  induction name as [|c s IH].
  - split; [discriminate|]. intros [[|? ?] H]; discriminate.
  - change (OS.fnmatch "*.log" (String c s))
      with (OS.fnmatch ".log" (String c s) || OS.fnmatch "*.log" s)%bool.
    rewrite orb_true_iff, Hlit, IH. split.
    + intros [->|[stem ->]]; [now exists ""|now exists (String c stem)].
    + intros [[|c' stem] H]; [now left|].
      right. exists stem. rewrite StrFacts.append_cons in H. now inversion H.
Qed.

Module PathFacts.
Import Str StrFacts.

Lemma length_append a b :
  String.length (a +:+ b) = (String.length a + String.length b)%nat.
Proof. induction a as [|c a IH]; [reflexivity|]. rewrite append_cons. simpl. now rewrite IH. Qed.

Lemma drop_prefix_Some p s r : drop_prefix p s = Some r -> s = p +:+ r.
Proof.
  revert s. induction p as [|a p IH]; intros s; simpl.
  - intros [= <-]. reflexivity.
  - destruct s as [|b s]; [discriminate|].
    destruct (Ascii.eqb a b) eqn:E; [|discriminate].
    apply Ascii.eqb_eq in E as ->. intros H. rewrite append_cons. f_equal. now apply IH.
Qed.

(** An entry of a directory is not the directory. *)
Lemma glob_match_ne d pat q : OS.glob_match d pat q = true -> q <> d.
Proof.
  unfold OS.glob_match, OS.entry_name.
  destruct (drop_prefix (d +:+ "/") q) as [name|] eqn:E; [|discriminate].
  intros _ ->. apply drop_prefix_Some in E.
  apply (f_equal String.length) in E. rewrite !length_append in E. simpl in E. lia.
Qed.

(** A relative command identifier gives a path below [logs]. *)
Lemma log_path_relative c w :
  c <> "" -> startswith "/" c = false ->
  log_path c w = "logs/" +:+ c +:+ "-" +:+ today w +:+ ".log".
Proof.
  intros Hc Hs. unfold log_path, OS.path_join.
  destruct c as [|a s]; [congruence|].
  rewrite append_cons. unfold startswith in *. cbn [drop_prefix] in *.
  destruct (Ascii.eqb "/" a); [discriminate|]. reflexivity.
Qed.

Lemma below_logs_ne x : "logs/" +:+ x <> "logs".
Proof. intros E. apply (f_equal String.length) in E. rewrite length_append in E. simpl in E. lia. Qed.

End PathFacts.

(** ** The configurator *)

Module SetupFacts.

Lemma alter_known (f : Logger -> Logger) key (m : gmap string Logger) L :
  m !! key = Some L -> alter f key m = <[key := f L]> m.
Proof.
  intros E. apply map_eq. intros i. destruct (decide (i = key)) as [->|Hi].
  - now rewrite lookup_alter_eq, lookup_insert_eq, E.
  - now rewrite lookup_alter_ne, lookup_insert_ne by congruence.
Qed.

Lemma update_known key f L w :
  loggers w !! key = Some L ->
  Logging.update key f w = (Return tt, set_loggers (insert key (f L)) w).
Proof.
  intros E. unfold Logging.update, modify, set_loggers. f_equal. f_equal.
  now apply alter_known.
Qed.

Lemma set_loggers_insert_twice key L1 L2 w :
  set_loggers (insert key L2) (set_loggers (insert key L1) w)
  = set_loggers (insert key L2) w.
Proof. unfold set_loggers. simpl. f_equal. apply insert_insert_eq. Qed.

Lemma lookup_set_loggers_insert key L w :
  loggers (set_loggers (insert key L) w) !! key = Some L.
Proof. simpl. apply lookup_insert_eq. Qed.

(** Up to the console handler, a call only rewrites the logger. *)
Lemma setup_logger_console name w :
  let key := Logging.logger_key name in
  exists w0,
    Logging.getLogger name w = (Return key, w0) /\
    loggers w0 !! key = Some (logger_at key w) /\
    set_loggers (insert key (logger_at key w)) w = w0.
Proof.
  intros key. unfold Logging.getLogger, logger_at. fold key.
  destruct (loggers w !! key) as [l|] eqn:E.
  - exists w. split; [reflexivity|]. split; [assumption|].
    destruct w. unfold set_loggers. simpl in *. f_equal. now apply insert_id.
  - eexists. split; [reflexivity|]. split; [apply lookup_set_loggers_insert|reflexivity].
Qed.

Lemma setup_logger_prefix name cmd w :
  setup_logger name cmd w
  = finish_setup (Logging.logger_key name) (env_level w) cmd (console_world name w).
Proof.
  destruct (setup_logger_console name w) as (w0 & G & E0 & Hw0).
  unfold setup_logger. unfold bind at 1. unfold OS.getenv at 1.
  fold (env_level w). unfold bind at 1. rewrite G.
  unfold bind at 1. unfold Logging.setLevel.
  rewrite (update_known _ _ _ _ E0).
  unfold bind at 1. unfold Logging.get_handlers at 1.
  rewrite lookup_set_loggers_insert. cbn [handlers].
  rewrite <- Hw0, set_loggers_insert_twice.
  unfold bind at 1.
  assert (Hclear : forall L,
    (match handlers L with
     | [] => ret tt
     | _ :: _ => Logging.clear_handlers (Logging.logger_key name)
     end) (set_loggers (insert (Logging.logger_key name)
                          (mkLogger (env_level w) (handlers L) (propagate L))) w)
    = (Return tt, set_loggers (insert (Logging.logger_key name)
                          (mkLogger (env_level w) [] (propagate L))) w)).
  { intros L. destruct (handlers L); [reflexivity|].
    unfold Logging.clear_handlers.
    rewrite (update_known _ _ _ _ (lookup_set_loggers_insert _ _ _)).
    now rewrite set_loggers_insert_twice. }
  rewrite Hclear. unfold bind at 1. unfold Logging.addHandler at 1.
  rewrite (update_known _ _ _ _ (lookup_set_loggers_insert _ _ _)).
  rewrite set_loggers_insert_twice. reflexivity.
Qed.

(** The file operations leave the process state alone. *)
Lemma makedirs_spec p w :
  exists o w',
    OS.makedirs p true w = (o, w') /\ same_process w w' /\
    syscalls w' = syscalls w ++ [SysMakedirs p] /\
    match fs w !! p with
    | None => o = Return tt /\ fs w' = <[p := Dir (clock w)]> (fs w)
    | Some (Dir _) => o = Return tt /\ fs w' = fs w
    | Some (File _ _) => o = Raise FileExistsError /\ fs w' = fs w
    end.
Proof.
  unfold OS.makedirs. simpl.
  destruct (fs w !! p) as [[t e|t]|]; do 2 eexists;
    (split; [reflexivity|]); repeat split; reflexivity.
Qed.

Lemma open_append_spec p w :
  exists o w',
    OS.open_append p w = (o, w') /\ same_process w w' /\
    syscalls w' = syscalls w ++ [SysOpen p "a"] /\
    (forall q, q <> p -> fs w' !! q = fs w !! q) /\
    match o with
    | Return _ =>
        can_open (fs w) p = true /\
        fs w' !! p = Some (match fs w !! p with
                           | Some n => n
                           | None => File (clock w) None
                           end)
    | Raise _ => can_open (fs w) p = false /\ fs w' = fs w
    end.
Proof.
  unfold OS.open_append, can_open. simpl.
  destruct (fs w !! p) as [[t e|t]|] eqn:E.
  - do 2 eexists. split; [reflexivity|]. repeat split; simpl; congruence.
  - do 2 eexists. split; [reflexivity|]. repeat split.
  - destruct (String.eqb (OS.dirname p) "" || is_dir (fs w !! OS.dirname p))%bool.
    + do 2 eexists. split; [reflexivity|]. repeat split; simpl.
      * intros q Hq. now apply lookup_insert_ne.
      * apply lookup_insert_eq.
    + do 2 eexists. split; [reflexivity|]. repeat split.
Qed.

Lemma same_process_trans w1 w2 w3 :
  same_process w1 w2 -> same_process w2 w3 -> same_process w1 w3.
Proof. intros (?&?&?&?) (?&?&?&?). repeat split; congruence. Qed.

(** Without a command identifier the call only rewrites the logger. *)
Lemma setup_logger_plain name cmd w :
  truthy cmd = false ->
  setup_logger name cmd w =
  (Return (Logging.logger_key name),
   set_loggers
     (insert (Logging.logger_key name)
        (mkLogger (env_level w) [console_handler_of (env_level w)] false)) w).
Proof.
  intros Hc. rewrite setup_logger_prefix. unfold finish_setup.
  assert (E : (match cmd with
               | Some (String _ _ as command_name) =>
                   attach_file_handler (Logging.logger_key name) (env_level w) command_name
               | _ => ret tt
               end) = ret tt) by (destruct cmd as [[|? ?]|]; [reflexivity|discriminate|reflexivity]).
  rewrite E. unfold bind at 1. unfold ret at 1. unfold bind at 1.
  unfold Logging.set_propagate, console_world.
  rewrite (update_known _ _ _ _ (lookup_set_loggers_insert _ _ _)).
  now rewrite set_loggers_insert_twice.
Qed.

(** The file branch runs [makedirs], the reaper and the opening of the
    log file, in this order. *)
Lemma attach_file_handler_run key lvl c w L :
  loggers w !! key = Some L ->
  exists o2 w2,
    OS.makedirs "logs" true w = (o2, w2) /\
    match o2 with
    | Raise e => attach_file_handler key lvl c w = (Raise e, w2)
    | Return _ =>
        exists w3,
          cleanup_old_logs "logs" (Some 7) w2 = (Return tt, w3) /\
          exists o4 w4,
            OS.open_append (log_path c w) w3 = (o4, w4) /\
            match o4 with
            | Raise e => attach_file_handler key lvl c w = (Raise e, w4)
            | Return _ =>
                attach_file_handler key lvl c w =
                (Return tt,
                 set_loggers
                   (insert key
                      (mkLogger (level L)
                         (handlers L ++ [file_handler_of (log_path c w) lvl])
                         (propagate L))) w4)
            end
    end.
Proof.
  intros HL.
  destruct (makedirs_spec "logs" w) as (o2 & w2 & Em & F2 & _).
  exists o2, w2. split; [exact Em|].
  destruct o2 as [[]|e].
  2: { unfold attach_file_handler. unfold bind at 1. now rewrite Em. }
  destruct (cleanup_old_logs_spec "logs" (Some 7) w2) as (w3 & R & F3 & _).
  exists w3. split; [exact R|].
  assert (F13 := same_process_trans _ _ _ F2 F3).
  destruct F13 as (Henv3 & Hclk3 & Htz3 & Hlog3).
  destruct (open_append_spec (log_path c w) w3) as (o4 & w4 & Eo & F4 & _).
  exists o4, w4. split; [exact Eo|].
  assert (Hp : OS.path_join "logs"
             (c +:+ "-" +:+ Datetime.strftime "%Y%m%d"
                (Datetime.fromtimestamp (utcoffset w3) (clock w3)) +:+ ".log")
               = log_path c w)
    by (unfold log_path, today; now rewrite Hclk3, Htz3).
  destruct o4 as [[]|e];
    unfold attach_file_handler; unfold bind at 1; rewrite Em;
    unfold bind at 1; rewrite R; unfold bind at 1; unfold Datetime.now at 1;
    rewrite Hp; unfold bind at 1; unfold Logging.FileHandler;
    unfold bind at 1; rewrite Eo; [|reflexivity].
  unfold ret at 1. cbv beta iota.
  assert (Hl4 : loggers w4 !! key = Some L).
  { destruct F4 as (_ & _ & _ & ->). now rewrite Hlog3. }
  unfold Logging.addHandler. now rewrite (update_known _ _ _ _ Hl4).
Qed.

(** With a command identifier, the file branch runs on the world that
    has the console handler attached. *)
Lemma log_path_console name c w : log_path c (console_world name w) = log_path c w.
Proof.
  unfold log_path, today, console_world, set_loggers.
  cbn [utcoffset clock]. reflexivity.
Qed.

Lemma setup_logger_file name a s w :
  exists o2 w2,
    OS.makedirs "logs" true (console_world name w) = (o2, w2) /\
    match o2 with
    | Raise e => setup_logger name (Some (String a s)) w = (Raise e, w2)
    | Return _ =>
        exists w3,
          cleanup_old_logs "logs" (Some 7) w2 = (Return tt, w3) /\
          exists o4 w4,
            OS.open_append (log_path (String a s) w) w3 = (o4, w4) /\
            match o4 with
            | Raise e => setup_logger name (Some (String a s)) w = (Raise e, w4)
            | Return _ =>
                setup_logger name (Some (String a s)) w =
                (Return (Logging.logger_key name),
                 set_loggers
                   (insert (Logging.logger_key name)
                      (mkLogger (env_level w)
                         [console_handler_of (env_level w);
                          file_handler_of (log_path (String a s) w) (env_level w)]
                         false)) w4)
            end
    end.
Proof.
  assert (Hfin : setup_logger name (Some (String a s)) w =
            match attach_file_handler (Logging.logger_key name) (env_level w)
                    (String a s) (console_world name w) with
            | (Return _, w') =>
                (Logging.set_propagate (Logging.logger_key name) false;;;
                 ret (Logging.logger_key name)) w'
            | (Raise e, w') => (Raise e, w')
            end).
  { rewrite setup_logger_prefix. unfold finish_setup. unfold bind at 1.
    destruct (attach_file_handler _ _ _ _) as [[[]|e] w']; reflexivity. }
  destruct (attach_file_handler_run (Logging.logger_key name) (env_level w)
              (String a s) (console_world name w) _
              (lookup_set_loggers_insert _ _ _))
    as (o2 & w2 & Em & H).
  rewrite log_path_console in H.
  exists o2, w2. split; [exact Em|].
  destruct o2 as [[]|e]; [|now rewrite Hfin, H].
  destruct H as (w3 & R & o4 & w4 & Eo & H).
  exists w3. split; [exact R|]. exists o4, w4. split; [exact Eo|].
  destruct o4 as [[]|e]; [|now rewrite Hfin, H].
  rewrite Hfin, H. unfold bind at 1. unfold Logging.set_propagate.
  rewrite (update_known _ _ _ _ (lookup_set_loggers_insert _ _ _)).
  now rewrite set_loggers_insert_twice.
Qed.

(** The logger a call leaves behind, whatever its outcome. *)
Lemma setup_logger_logger name cmd w :
  exists o w' pr,
    setup_logger name cmd w = (o, w') /\
    (o = Return (Logging.logger_key name) /\ pr = false \/ exists e, o = Raise e) /\
    loggers w' !! Logging.logger_key name =
      Some (mkLogger (env_level w)
              (console_handler_of (env_level w) ::
               if truthy cmd && is_return o
               then [file_handler_of (log_path (default "" cmd) w) (env_level w)]
               else [])
              pr).
Proof.
  destruct (truthy cmd) eqn:Hc.
  - destruct cmd as [[|a s]|]; try discriminate.
    destruct (setup_logger_file name a s w) as (o2 & w2 & Em & H).
    destruct (makedirs_spec "logs" (console_world name w))
      as (o2' & w2' & Em' & F2 & _).
    rewrite Em in Em'. injection Em' as <- <-.
    destruct o2 as [[]|e].
    + destruct H as (w3 & R & o4 & w4 & Eo & H).
      destruct (cleanup_old_logs_spec "logs" (Some 7) w2) as (w3' & R' & F3 & _).
      rewrite R in R'. injection R' as <-.
      destruct (open_append_spec (log_path (String a s) w) w3)
        as (o4' & w4' & Eo' & F4 & _).
      rewrite Eo in Eo'. injection Eo' as <- <-.
      destruct o4 as [[]|e].
      * do 3 eexists. split; [exact H|]. split; [left; split; reflexivity|].
        apply lookup_set_loggers_insert.
      * do 3 eexists. split; [exact H|]. split; [right; eauto|].
        destruct (same_process_trans _ _ _ (same_process_trans _ _ _ F2 F3) F4)
          as (_ & _ & _ & ->).
        apply lookup_set_loggers_insert.
    + do 3 eexists. split; [exact H|]. split; [right; eauto|].
      destruct F2 as (_ & _ & _ & ->). apply lookup_set_loggers_insert.
  - rewrite (setup_logger_plain name cmd w Hc).
    do 3 eexists. split; [reflexivity|]. split; [left; split; reflexivity|].
    apply lookup_set_loggers_insert.
Qed.

(** [makedirs] on [logs] when no file is in the way. *)
Lemma makedirs_logs w o2 w2 :
  OS.makedirs "logs" true w = (o2, w2) ->
  (forall t u, fs w !! "logs" <> Some (File t u)) ->
  o2 = Return tt /\ is_dir (fs w2 !! "logs") = true /\
  (forall q, q <> "logs" -> fs w2 !! q = fs w !! q) /\
  same_process w w2 /\ syscalls w2 = syscalls w ++ [SysMakedirs "logs"].
Proof.
  intros Em Hlogs.
  destruct (makedirs_spec "logs" w) as (o2' & w2' & Em' & F2 & Hs2 & Hfs2).
  rewrite Em in Em'. injection Em' as <- <-.
  destruct (fs w !! "logs") as [[t u|t]|] eqn:El.
  - now destruct (Hlogs t u).
  - destruct Hfs2 as [-> ->]. rewrite El. auto.
  - destruct Hfs2 as [-> ->]. rewrite lookup_insert_eq. split; [reflexivity|].
    split; [reflexivity|]. split; [|auto].
    intros q Hq. now apply lookup_insert_ne.
Qed.

Lemma open_append_return p w o w' :
  OS.open_append p w = (o, w') -> is_return o = can_open (fs w) p.
Proof.
  intros E. destruct (open_append_spec p w) as (o1 & w1 & E1 & _ & _ & _ & H).
  rewrite E in E1. injection E1 as <- <-.
  destruct o as [[]|e]; destruct H as [-> _]; reflexivity.
Qed.

Lemma makedirs_return p w o w' :
  OS.makedirs p true w = (o, w') ->
  is_return o = match fs w !! p with Some (File _ _) => false | _ => true end /\
  fs w' = match fs w !! p with None => <[p := Dir (clock w)]> (fs w) | _ => fs w end /\
  clock w' = clock w /\ utcoffset w' = utcoffset w.
Proof.
  intros E. destruct (makedirs_spec p w) as (o1 & w1 & E1 & F & _ & H).
  rewrite E in E1. injection E1 as <- <-. destruct F as (_ & -> & -> & _).
  destruct (fs w !! p) as [[t u|t]|]; destruct H as [-> ->]; repeat split.
Qed.

Lemma cleanup_fs_determined d days w1 w2 w1' w2' :
  fs w1 = fs w2 -> clock w1 = clock w2 ->
  cleanup_old_logs d days w1 = (Return tt, w1') ->
  cleanup_old_logs d days w2 = (Return tt, w2') ->
  fs w1' = fs w2'.
Proof.
  intros Hfs Hclk R1 R2.
  destruct (cleanup_old_logs_spec d days w1) as (x1 & E1 & _ & H1 & _).
  destruct (cleanup_old_logs_spec d days w2) as (x2 & E2 & _ & H2 & _).
  rewrite R1 in E1. rewrite R2 in E2. injection E1 as <-. injection E2 as <-.
  assert (Hc : candidates d (retention days) w1 = candidates d (retention days) w2)
    by (unfold candidates; now rewrite Hfs, Hclk).
  apply map_eq. intros q. now rewrite H1, H2, Hfs, Hc.
Qed.

(** Whether [setup_logger] returns or raises does not depend on the
    environment. *)
Lemma setup_logger_outcome_env name cmd w env' :
  is_return (fst (setup_logger name cmd (set_environ (fun _ => env') w)))
  = is_return (fst (setup_logger name cmd w)).
Proof.
  set (wB := set_environ (fun _ => env') w).
  destruct (truthy cmd) eqn:Hc.
  2: { now rewrite !setup_logger_plain by assumption. }
  destruct cmd as [[|a s]|]; try discriminate.
  assert (Hp : log_path (String a s) wB = log_path (String a s) w).
  { unfold log_path, today, wB, set_environ. cbn [utcoffset clock]. reflexivity. }
  destruct (setup_logger_file name a s w) as (o2 & w2 & Em & H).
  destruct (setup_logger_file name a s wB) as (o2B & w2B & EmB & HB).
  destruct (makedirs_return _ _ _ _ Em) as (Ho & Hfs & Hclk & Htz).
  destruct (makedirs_return _ _ _ _ EmB) as (HoB & HfsB & HclkB & HtzB).
  cbn [console_world wB set_environ set_loggers fs clock] in Ho, HoB, Hfs, HfsB, Hclk, HclkB.
  assert (Hoo : is_return o2B = is_return o2) by (now rewrite Ho, HoB).
  destruct o2 as [[]|e], o2B as [[]|eB]; try discriminate Hoo.
  2: { rewrite H, HB. reflexivity. }
  destruct H as (w3 & R & o4 & w4 & Eo & H).
  destruct HB as (w3B & RB & o4B & w4B & EoB & HB).
  assert (Hfs3 : fs w3 = fs w3B).
  { apply (cleanup_fs_determined "logs" (Some 7) w2 w2B);
      [now rewrite Hfs, HfsB|now rewrite Hclk, HclkB|assumption|assumption]. }
  rewrite Hp in EoB, HB.
  assert (Ho4 : is_return o4B = is_return o4).
  { rewrite (open_append_return _ _ _ _ Eo), (open_append_return _ _ _ _ EoB).
    now rewrite Hfs3. }
  destruct o4 as [[]|e], o4B as [[]|eB]; try discriminate Ho4;
    rewrite H, HB; reflexivity.
Qed.

End SetupFacts.

(** ** The formatter *)

Module FormatFacts.
Import StrFacts.

Lemma template_line asctime lname short msg :
  Logging.percent_format Logging.Text (fmt the_formatter)
    [("asctime", asctime); ("levelname", lname); ("message", msg);
     ("levelname_short", short)]
  = Return (asctime +:+ " [" +:+ short +:+ "] : " +:+ msg).
Proof.
  rewrite <- (append_nil_r msg) at 2. vm_compute. reflexivity.
Qed.

Lemma strftime_datefmt dt :
  Datetime.strftime "%Y-%m-%d %H:%M:%S" dt
  = Str.format_d 4 (year dt) +:+ "-" +:+ Str.format_d 2 (month dt) +:+ "-" +:+
    Str.format_d 2 (day dt) +:+ " " +:+ Str.format_d 2 (hour dt) +:+ ":" +:+
    Str.format_d 2 (minute dt) +:+ ":" +:+ Str.format_d 2 (second dt).
Proof.
  cbv [Datetime.strftime Datetime.directive Ascii.eqb Bool.eqb].
  rewrite append_nil_r. reflexivity.
Qed.

Lemma formatTime_timestamp record w :
  CustomFormatter.formatTime record (datefmt the_formatter) w
  = (Return (timestamp (local_time w record) (int_of_Q (msecs record))), w).
Proof.
  unfold CustomFormatter.formatTime, the_formatter, datefmt, timestamp.
  change (String.eqb "%Y-%m-%d %H:%M:%S" "") with false. cbv iota.
  fold (local_time w record). rewrite strftime_datefmt.
  now rewrite !append_assoc.
Qed.

(** The line rendered for a record whose short level name is [short]. *)
Lemma format_with_short record w fallback short :
  Str.head (levelname record) = Some fallback ->
  Logging.dict_get CustomFormatter.LEVEL_MAP (levelname record) fallback = short ->
  CustomFormatter.format the_formatter record w
  = (Return (Logging.add_details record
               (timestamp (local_time w record) (int_of_Q (msecs record))
                +:+ " [" +:+ short +:+ "] : " +:+ message record)), w).
Proof.
  intros Hn Hs. unfold CustomFormatter.format.
  unfold bind at 1. unfold CustomFormatter.first_char, ret. rewrite Hn, Hs.
  unfold Logging.Formatter_format, bind.
  rewrite formatTime_timestamp. unfold Logging.record_dict.
  cbn [levelname_short message levelname app].
  now rewrite template_line.
Qed.


End FormatFacts.

Module WidthFacts.






End WidthFacts.

(** * The claims *)




(** C2, as amended.  After a call of [setup_logger], the threshold of the
    logger is the level that [LOG_LEVEL] names up to surrounding white
    space and letter case, where the case is ignored by taking the upper
    case of [str.upper]: every spelling of a name in small and capital
    letters counts, and so does one with a dotless i for the I.  The
    threshold is INFO when the variable names no level in this sense or
    is not set.  No value of the variable makes the call raise: whether
    the call returns does not depend on the environment, and without a
    command identifier it always returns. *)
Theorem setup_logger_threshold (name command_name : option string) (w : World) :
  let key := Logging.logger_key name in
  let w' := snd (setup_logger name command_name w) in
  (forall v N lvl,
     environ w !! "LOG_LEVEL" = Some v ->
     In (N, lvl) standard_levels -> names_level v N ->
     level <$> loggers w' !! key = Some lvl) /\
  (forall v,
     environ w !! "LOG_LEVEL" = Some v ->
     (forall N lvl, In (N, lvl) standard_levels -> ~ names_level v N) ->
     level <$> loggers w' !! key = Some Logging.INFO) /\
  (environ w !! "LOG_LEVEL" = None ->
     level <$> loggers w' !! key = Some Logging.INFO) /\
  (forall pre core post N lvl,
     In (N, lvl) standard_levels -> white pre -> white post ->
     Str.ascii_lower core = Str.ascii_lower N ->
     names_level (pre +:+ core +:+ post) N) /\
  (forall env',
     is_return (fst (setup_logger name command_name (set_environ (fun _ => env') w)))
     = is_return (fst (setup_logger name command_name w))) /\
  (truthy command_name = false ->
     fst (setup_logger name command_name w) = Return key).
Proof.
  intros key w'.
  assert (Hl : level <$> loggers w' !! key = Some (env_level w)).
  { destruct (SetupFacts.setup_logger_logger name command_name w)
      as (o & w1 & pr & E & _ & Hl).
    unfold w'. rewrite E. simpl. fold key in Hl. now rewrite Hl. }
  rewrite Hl. unfold env_level. repeat split.
  - intros v N lvl -> HN Hv. f_equal. now apply LevelFacts.resolve_level_valid with N.
  - intros v -> Hv. f_equal. now apply LevelFacts.resolve_level_invalid.
  - intros ->. reflexivity.
  - intros pre core post N lvl HN Hpre Hpost E. exists pre, core, post.
    repeat split; try assumption. now apply (LevelFacts.upper_same_letters core N lvl).
  - intros env'. apply SetupFacts.setup_logger_outcome_env.
  - intros Hc. now rewrite (SetupFacts.setup_logger_plain name command_name w Hc).
Qed.

Lemma setup_logger_threshold_witness :
  level <$> loggers (snd (setup_logger (Some "csa") None sample_world)) !! "csa"
  = Some Logging.DEBUG.
Proof.
  assert (Hw : white " ") by (apply (white_app " " ""); [reflexivity|constructor]).
  apply (proj1 (setup_logger_threshold (Some "csa") None sample_world)
           " debug " "DEBUG" 10).
  - by_computation.
  - left. reflexivity.
  - exists " ", "debug", " ". repeat split; try exact Hw.
Defined.

(** C2, as stated, fails: [warnıng], written with the dotless i of
    U+0131, is none of the five names whatever the case of its letters,
    yet its upper case is [WARNING] and the threshold is WARNING, not
    INFO. *)
Lemma setup_logger_dotless_i :
  let v := "warn" +:+ Str.of_codes [196; 177]%N +:+ "ng" in
  let w := set_environ (fun _ => {[ "LOG_LEVEL" := v ]}) sample_world in
  level <$> loggers (snd (setup_logger None None w)) !! "root" = Some Logging.WARNING /\
  Str.strip v = v /\
  (forall N lvl, In (N, lvl) standard_levels ->
     Str.ascii_lower v <> Str.ascii_lower N /\ Str.ascii_upper v <> Str.ascii_upper N).
Proof.
  split; [by_computation|]. split; [by_computation|].
  intros N lvl [E|[E|[E|[E|[E|[]]]]]]; injection E as <- _; split; vm_compute; discriminate.
Qed.

(** C3, as amended.  After one or more calls of [setup_logger] for a
    name, the logger has exactly one console sink; it has exactly one
    file sink when the last call was given a command identifier and
    returned, and none otherwise.  The handlers the logger had before
    the last call, from earlier calls or from elsewhere, are all gone. *)
Theorem setup_logger_no_duplicates (name : option string)
    (earlier : list (option string)) (last : option string) (w : World) :
  let w1 := setup_logger_repeatedly name earlier w in
  let o := fst (setup_logger name last w1) in
  let w' := setup_logger_repeatedly name (earlier ++ [last]) w in
  exists l,
    loggers w' !! Logging.logger_key name = Some l /\
    count_sinks is_console (handlers l) = 1%nat /\
    count_sinks is_file (handlers l) = (if truthy last && is_return o then 1 else 0)%nat /\
    length (handlers l) = (count_sinks is_console (handlers l)
                           + count_sinks is_file (handlers l))%nat.
Proof.
  intros w1 o w'.
  assert (Hw' : w' = snd (setup_logger name last w1)).
  { unfold w', w1. clear. revert w.
    induction earlier as [|c cs IH]; intros w; [reflexivity|]. simpl. apply IH. }
  destruct (SetupFacts.setup_logger_logger name last w1) as (o1 & w2 & pr & E & _ & Hl).
  unfold o. rewrite Hw', E. simpl. eexists. split; [exact Hl|].
  simpl. destruct (truthy last && is_return o1); repeat split.
Qed.

(** C3, as stated, fails: a last call that was given a command
    identifier but raised, here because [logs] is a regular file, leaves
    the logger with its console sink and no file sink. *)
Lemma setup_logger_no_file_sink_when_raised :
  let w := set_fs (fun _ => {[ "logs" := File 0 None ]}) sample_world in
  let last := Some "analyze" in
  let w' := setup_logger_repeatedly (Some "csa") ([Some "analyze"] ++ [last]) w in
  truthy last = true /\
  fst (setup_logger (Some "csa") last
         (setup_logger_repeatedly (Some "csa") [Some "analyze"] w))
  = Raise FileExistsError /\
  (count_sinks is_console <$> (handlers <$> loggers w' !! "csa")) = Some 1%nat /\
  (count_sinks is_file <$> (handlers <$> loggers w' !! "csa")) = Some 0%nat.
Proof. vm_compute. repeat split; reflexivity. Qed.







(** C6.  On a path that does not exist, [cleanup_old_logs] returns at
    once: no exception, no call into the file system, the world is the
    one it was given. *)
Theorem cleanup_old_logs_missing_dir (log_dir : string) (days : option Z) (w : World) :
  fs w !! log_dir = None ->
  cleanup_old_logs log_dir days w = (Return tt, w).
Proof.
  intros H. unfold cleanup_old_logs, bind, OS.path_exists. now rewrite H.
Qed.

Lemma cleanup_old_logs_missing_dir_witness :
  fs sample_world !! "archive" = None /\
  cleanup_old_logs "archive" (Some 7) sample_world = (Return tt, sample_world).
Proof.
  split; [by_computation|].
  apply (cleanup_old_logs_missing_dir "archive" (Some 7) sample_world). by_computation.
Defined.

(** C7.  A failure of a deletion is caught and ignored.  The guarded
    [unlink] returns whatever exception [unlink] raises, and leaves the
    entry in place.  [cleanup_old_logs] is the loop over the entries
    that [glob] lists; on any list of entries the loop raises only where
    [stat], which is outside the [try], finds a listed entry absent, and
    when every listed entry is there it goes on after every failed
    deletion and returns: it has called [unlink] on every stale entry, an
    entry whose deletion raised is still there and one whose deletion
    succeeded is gone.  An exception that leaves [setup_logger] is the
    one of [makedirs], of the reaper or of the opening of the log file
    of that very call; with the above, it is never one of [unlink]. *)
Theorem cleanup_old_logs_ignores_failures (log_dir : string) (days : option Z) (w : World) :
  let cutoff := cutoff_time (clock w) (retention days) in
  (forall p w0, exists w1,
     try_pass (OS.unlink p) w0 = (Return tt, w1) /\
     syscalls w1 = syscalls w0 ++ [SysUnlink p] /\
     fs w1 = match fs w0 !! p with
             | Some n => if unlinkable n then delete p (fs w0) else fs w0
             | None => fs w0
             end) /\
  (exists log_files,
     OS.glob log_dir "*.log" w = (Return log_files, w) /\ NoDup log_files /\
     cleanup_old_logs log_dir days w =
       if bool_decide (is_Some (fs w !! log_dir))
       then for_each log_files (reap cutoff) w
       else (Return tt, w)) /\
  (forall (log_files : list string) (w0 : World),
     NoDup log_files ->
     exists o w1,
       for_each log_files (reap cutoff) w0 = (o, w1) /\
       (forall e, o = Raise e ->
          e = FileNotFoundError /\ exists p, p ∈ log_files /\ fs w0 !! p = None) /\
       ((forall p, p ∈ log_files -> is_Some (fs w0 !! p)) ->
          o = Return tt /\
          syscalls w1 = syscalls w0 ++
            (SysUnlink <$> filter (fun p => is_expired cutoff (fs w0) p = true) log_files) /\
          (forall p n, p ∈ log_files -> fs w0 !! p = Some n ->
             (st_mtime n < cutoff)%Q ->
             fs w1 !! p = if unlinkable n then None else Some n))) /\
  (forall name c e w1,
     setup_logger name (Some c) w = (Raise e, w1) ->
     exists o2 w2,
       OS.makedirs "logs" true (console_world name w) = (o2, w2) /\
       (o2 = Raise e /\ w1 = w2 \/
        o2 = Return tt /\
        exists o3 w3,
          cleanup_old_logs "logs" (Some 7) w2 = (o3, w3) /\
          (o3 = Raise e /\ w1 = w3 \/
           o3 = Return tt /\ OS.open_append (log_path c w) w3 = (Raise e, w1)))).
Proof.
  intros cutoff. split; [|split; [|split]].
  - intros p w0. destruct (try_pass_unlink p w0) as (w1 & R & _ & Hs & Hfs). eauto.
  - eexists. split; [reflexivity|]. split.
    { apply NoDup_filter, NoDup_fst_map_to_list. }
    unfold cleanup_old_logs, bind, OS.path_exists, OS.time, OS.glob.
    destruct (fs w !! log_dir) as [d|] eqn:Ed; reflexivity.
  - intros l w0 Hnd.
    destruct (for_each l (reap cutoff) w0) as [o w1] eqn:E.
    exists o, w1. split; [reflexivity|]. split.
    + intros e ->. exact (reap_all_raise cutoff l w0 e w1 Hnd E).
    + intros Hall.
      destruct (reap_all_spec cutoff l w0 Hnd Hall) as (w' & R & _ & Hfs & Hs).
      rewrite R in E. injection E as <- <-. split; [reflexivity|].
      split; [exact Hs|]. intros p n Hp En Hlt. rewrite Hfs, En.
      rewrite (bool_decide_eq_true_2 _ Hp). unfold expired.
      apply Qltb_lt in Hlt. rewrite Hlt. reflexivity.
  - intros name c e w1 E. destruct c as [|a s].
    { rewrite (SetupFacts.setup_logger_plain name (Some "") w) in E by reflexivity.
      discriminate E. }
    destruct (SetupFacts.setup_logger_file name a s w) as (o2 & w2 & Em & H).
    exists o2, w2. split; [exact Em|]. destruct o2 as [[]|e2].
    + right. split; [reflexivity|].
      destruct H as (w3 & R & o4 & w4 & Eo & H). exists (Return tt), w3.
      split; [exact R|]. right. split; [reflexivity|].
      destruct o4 as [[]|e4]; rewrite H in E; [discriminate E|].
      injection E as -> ->. exact Eo.
    + left. rewrite H in E. injection E as -> ->. split; reflexivity.
Qed.

Lemma cleanup_old_logs_ignores_failures_witness :
  let l := ["logs/held.log"; "logs/old.log"] in
  let r := for_each l (reap (cutoff_time (clock sample_world) 7)) sample_world in
  fst r = Return tt /\
  fs (snd r) !! "logs/held.log" = Some (File 0 (Some PermissionError)) /\
  fs (snd r) !! "logs/old.log" = None.
Proof.
  intros l r.
  destruct (cleanup_old_logs_ignores_failures "logs" (Some 7) sample_world)
    as (_ & _ & H & _).
  assert (Hnd : NoDup l) by (apply (bool_decide_unpack _); by_computation).
  destruct (H l sample_world Hnd) as (o & w1 & E & _ & Hall).
  assert (Hin : forall p, p ∈ l -> is_Some (fs sample_world !! p)).
  { intros p Hp. apply elem_of_cons in Hp as [->|Hp].
    - eexists. by_computation.
    - apply list_elem_of_singleton in Hp as ->. eexists. by_computation. }
  destruct (Hall Hin) as (-> & _ & Hfs).
  unfold r. simpl retention in E. rewrite E. simpl. split; [reflexivity|]. split.
  - apply (Hfs "logs/held.log" (File 0 (Some PermissionError)));
      [left|by_computation|by_computation].
  - apply (Hfs "logs/old.log" (File 0 None));
      [right; left|by_computation|by_computation].
Defined.

(** C8.  Without a command identifier ([None] or the empty string),
    [setup_logger] returns and leaves the file system as it was: it
    issues no call that could create a directory, open a file or delete
    one. *)
Theorem setup_logger_no_command (name command_name : option string) (w : World) :
  command_name = None \/ command_name = Some "" ->
  exists w',
    setup_logger name command_name w = (Return (Logging.logger_key name), w') /\
    fs w' = fs w /\ syscalls w' = syscalls w.
Proof.
  intros H. rewrite SetupFacts.setup_logger_plain by (now destruct H as [-> | ->]).
  eexists. split; [reflexivity|]. split; reflexivity.
Qed.

Lemma setup_logger_no_command_witness :
  exists w',
    setup_logger (Some "csa") (Some "") sample_world = (Return "csa", w') /\
    fs w' = fs sample_world /\ syscalls w' = syscalls sample_world.
Proof.
  apply (setup_logger_no_command (Some "csa") (Some "") sample_world).
  right. reflexivity.
Defined.

(* The order of the cleanup pass and of the opening of the log file
   rests on the lemmas on the path of the log file, and is stated
   after them. *)

(** C10.  [get_logger] is [setup_logger]: on every world the two return
    the same logger and leave the same world, and [get_logger] rebuilds
    the handlers of the logger on each call, whatever they were. *)
Theorem get_logger_is_setup_logger (name command_name : option string) (w : World) :
  get_logger name command_name w = setup_logger name command_name w /\
  exists l,
    loggers (snd (get_logger name command_name w)) !! Logging.logger_key name = Some l /\
    (handlers l = [console_handler_of (env_level w)] \/
     handlers l = [console_handler_of (env_level w);
                   file_handler_of (log_path (default "" command_name) w) (env_level w)]).
Proof.
  split; [reflexivity|]. unfold get_logger.
  destruct (SetupFacts.setup_logger_logger name command_name w)
    as (o & w' & pr & E & _ & Hl).
  rewrite E. simpl. eexists. split; [exact Hl|]. simpl.
  destruct (truthy command_name && is_return o); [right|left]; reflexivity.
Qed.

(** * Further properties *)

(** ** The logger a call leaves in the registry *)

Module RegistryFacts.
Import SetupFacts.

(** The registry after a call: only the entry of the logger changes. *)
Lemma setup_logger_registry name cmd w :
  let key := Logging.logger_key name in
  let lvl := env_level w in
  exists o w',
    setup_logger name cmd w = (o, w') /\
    (is_return o = true -> o = Return key) /\
    environ w' = environ w /\ clock w' = clock w /\ utcoffset w' = utcoffset w /\
    loggers w' =
      <[key := mkLogger lvl
                 (console_handler_of lvl ::
                  if truthy cmd && is_return o
                  then [file_handler_of (log_path (default "" cmd) w) lvl] else [])
                 (if is_return o then false else propagate (logger_at key w))]>
        (loggers w).
Proof.
  intros key lvl.
  assert (Hcw : forall w4 L, same_process (console_world name w) w4 ->
            loggers (set_loggers (insert key L) w4) = <[key := L]> (loggers w)).
  { intros w4 L (_ & _ & _ & Hl). cbn [set_loggers loggers]. rewrite Hl.
    unfold console_world. cbn [set_loggers loggers]. apply insert_insert_eq. }
  assert (Hraise : forall w4, same_process (console_world name w) w4 ->
            loggers w4 = <[key := mkLogger lvl [console_handler_of lvl]
                                    (propagate (logger_at key w))]> (loggers w)).
  { intros w4 (_ & _ & _ & Hl). rewrite Hl. reflexivity. }
  destruct (truthy cmd) eqn:Hc.
  - destruct cmd as [[|a s]|]; try discriminate Hc.
    destruct (setup_logger_file name a s w) as (o2 & w2 & Em & H).
    destruct (makedirs_spec "logs" (console_world name w))
      as (o2' & w2' & Em' & F2 & _).
    rewrite Em in Em'. injection Em' as <- <-.
    destruct o2 as [[]|e].
    + destruct H as (w3 & R & o4 & w4 & Eo & H).
      destruct (cleanup_old_logs_spec "logs" (Some 7) w2) as (w3' & R' & F3 & _).
      rewrite R in R'. injection R' as <-.
      destruct (open_append_spec (log_path (String a s) w) w3)
        as (o4' & w4' & Eo' & F4 & _).
      rewrite Eo in Eo'. injection Eo' as <- <-.
      assert (F := same_process_trans _ _ _ (same_process_trans _ _ _ F2 F3) F4).
      destruct o4 as [[]|e]; do 2 eexists; (split; [exact H|]).
      * split; [reflexivity|]. rewrite (Hcw _ _ F). destruct F as (He & Hk & Hz & _).
        split; [exact He|]. split; [exact Hk|]. split; [exact Hz|]. reflexivity.
      * split; [discriminate|]. destruct F as (He & Hk & Hz & Hl).
        split; [exact He|]. split; [exact Hk|]. split; [exact Hz|].
        apply Hraise. repeat split; assumption.
    + do 2 eexists. split; [exact H|]. split; [discriminate|].
      destruct F2 as (He & Hk & Hz & Hl).
      split; [exact He|]. split; [exact Hk|]. split; [exact Hz|].
      apply Hraise. repeat split; assumption.
  - rewrite (setup_logger_plain name cmd w Hc).
    do 2 eexists. split; [reflexivity|]. repeat split.
Qed.

End RegistryFacts.

(** X1.  [setup_logger] switches propagation off only at its very end:
    when the call returns, [propagate] of the logger is [False]; when the
    call raises on the way (in [makedirs] or when opening the log file),
    the flag keeps the value it had, [True] for a logger that was not
    configured before. *)
Theorem setup_logger_propagate (name command_name : option string) (w : World) :
  let key := Logging.logger_key name in
  let r := setup_logger name command_name w in
  propagate <$> loggers (snd r) !! key
  = Some (if is_return (fst r) then false else propagate (logger_at key w)).
Proof.
  intros key r.
  destruct (RegistryFacts.setup_logger_registry name command_name w)
    as (o & w' & E & _ & _ & _ & _ & Hl).
  unfold r. rewrite E. cbn [fst snd]. rewrite Hl. fold key.
  now rewrite lookup_insert_eq.
Qed.

(** X2.  After a call of [setup_logger], returned or raised, every
    handler of the logger has the threshold of the logger itself and the
    formatter with the template of the module. *)
Theorem setup_logger_handlers_uniform (name command_name : option string) (w : World)
    (l : Logger) (h : Handler) :
  loggers (snd (setup_logger name command_name w)) !! Logging.logger_key name = Some l ->
  In h (handlers l) ->
  h_level h = level l /\
  h_formatter h =
    Some (mkFormatter "%(asctime)s [%(levelname_short)s] : %(message)s"
                      (Some "%Y-%m-%d %H:%M:%S")).
Proof.
  destruct (RegistryFacts.setup_logger_registry name command_name w)
    as (o & w' & E & _ & _ & _ & _ & Hl).
  rewrite E. cbn [snd]. rewrite Hl, lookup_insert_eq. intros [= <-]. cbn [handlers level].
  intros [<-|Hin]; [split; reflexivity|].
  destruct (truthy command_name && is_return o); [|destruct Hin].
  destruct Hin as [<-|[]]. split; reflexivity.
Qed.

Lemma setup_logger_handlers_uniform_witness :
  exists l h,
    loggers (snd (setup_logger (Some "csa") (Some "analyze") sample_world)) !! "csa" = Some l /\
    In h (handlers l) /\ is_file h = true /\ h_level h = level l.
Proof.
  set (l := mkLogger 10 [console_handler_of 10;
                         file_handler_of "logs/analyze-20240115.log" 10] false).
  assert (El : loggers (snd (setup_logger (Some "csa") (Some "analyze") sample_world))
               !! Logging.logger_key (Some "csa") = Some l) by by_computation.
  exists l, (file_handler_of "logs/analyze-20240115.log" 10).
  split; [exact El|]. split; [right; left; reflexivity|]. split; [reflexivity|].
  apply (setup_logger_handlers_uniform (Some "csa") (Some "analyze") sample_world l _ El).
  right. left. reflexivity.
Defined.

(** X3.  A call of [setup_logger] configures one logger only: the level
    set on every logger registered under another name, its handlers and
    its propagate flag are as they were, and so is the environment,
    whether the call returns or raises. *)
Theorem setup_logger_other_loggers (name command_name : option string) (w : World)
    (other : string) :
  other <> Logging.logger_key name ->
  let w' := snd (setup_logger name command_name w) in
  loggers w' !! other = loggers w !! other /\ environ w' = environ w.
Proof.
  intros Hne w'.
  destruct (RegistryFacts.setup_logger_registry name command_name w)
    as (o & w1 & E & _ & He & _ & _ & Hl).
  unfold w'. rewrite E. cbn [snd]. split; [|exact He].
  rewrite Hl. now apply lookup_insert_ne.
Qed.

Lemma setup_logger_other_loggers_witness :
  let w := set_loggers (insert "db" (mkLogger 40 [] true)) sample_world in
  loggers (snd (setup_logger (Some "csa") (Some "analyze") w)) !! "db"
  = Some (mkLogger 40 [] true).
Proof.
  intros w.
  rewrite (proj1 (setup_logger_other_loggers (Some "csa") (Some "analyze") w "db"
                    ltac:(discriminate))).
  by_computation.
Defined.

(** ** The stages of the file branch *)

Module StageFacts.
Import SetupFacts.

(** The file system that the opening of the log file finds: [logs] is a
    directory, and the other entries are those of the start without the
    stale logs that could be deleted. *)
Lemma setup_logger_stages name a s w :
  (forall t u, fs w !! "logs" <> Some (File t u)) ->
  exists w3 o4 w4,
    is_dir (fs w3 !! "logs") = true /\
    (forall d, fs w !! "logs" = Some d -> fs w3 !! "logs" = Some d) /\
    (forall q n, q <> "logs" -> fs w !! q = Some n ->
       fs w3 !! q =
         if OS.glob_match "logs" "*.log" q && expired (cutoff_time (clock w) 7) n
            && unlinkable n
         then None else Some n) /\
    (forall q, q <> "logs" -> fs w !! q = None -> fs w3 !! q = None) /\
    clock w3 = clock w /\
    OS.open_append (log_path (String a s) w) w3 = (o4, w4) /\
    same_process (console_world name w) w4 /\
    setup_logger name (Some (String a s)) w =
      (match o4 with Return _ => Return (Logging.logger_key name) | Raise e => Raise e end,
       if is_return o4
       then set_loggers
              (insert (Logging.logger_key name)
                 (mkLogger (env_level w)
                    [console_handler_of (env_level w);
                     file_handler_of (log_path (String a s) w) (env_level w)] false)) w4
       else w4).
Proof.
  intros Hlogs.
  destruct (setup_logger_file name a s w) as (o2 & w2 & Em & H).
  destruct (makedirs_logs _ _ _ Em Hlogs) as (-> & Hd2 & Hsame2 & F2 & _).
  destruct (makedirs_return _ _ _ _ Em) as (_ & Hfs2 & _).
  change (fs (console_world name w)) with (fs w) in Hsame2, Hfs2.
  destruct H as (w3 & R & o4 & w4 & Eo & H).
  destruct (cleanup_old_logs_spec "logs" (Some 7) w2) as (w3' & R' & F3 & Hfs3 & _).
  rewrite R in R'. injection R' as <-. cbn [retention] in Hfs3.
  destruct (open_append_spec (log_path (String a s) w) w3)
    as (o4' & w4' & Eo' & F4 & _).
  rewrite Eo in Eo'. injection Eo' as <- <-.
  assert (Hclk2 : clock w2 = clock w) by (destruct F2 as (_ & -> & _); reflexivity).
  assert (Hclk3 : clock w3 = clock w) by (destruct F3 as (_ & -> & _); exact Hclk2).
  exists w3, o4, w4.
  split; [|split; [|split; [|split; [|split; [exact Hclk3|split; [exact Eo|split]]]]]].
  - rewrite Hfs3. destruct (fs w2 !! "logs") as [[t u|t]|]; try discriminate Hd2.
    cbn [unlinkable]. now rewrite andb_false_r.
  - intros d Ed. rewrite Hfs3.
    assert (Ed2 : fs w2 !! "logs" = Some d) by (rewrite Hfs2, Ed; exact Ed).
    rewrite Ed2. destruct d as [t u|t]; [now destruct (Hlogs t u)|].
    cbn [unlinkable]. now rewrite andb_false_r.
  - intros q n Hq En. rewrite Hfs3, (Hsame2 q Hq), En.
    replace (bool_decide (q ∈ candidates "logs" 7 w2))
      with (OS.glob_match "logs" "*.log" q && expired (cutoff_time (clock w) 7) n);
      [reflexivity|].
    symmetry. destruct (OS.glob_match "logs" "*.log" q && _) eqn:Hb.
    + apply andb_true_iff in Hb as [Hg He]. apply bool_decide_eq_true.
      apply elem_of_candidates. split; [|split; [exact Hg|]].
      * destruct (fs w2 !! "logs"); [eauto|discriminate Hd2].
      * exists n. rewrite Hclk2, (Hsame2 q Hq). split; assumption.
    + apply bool_decide_eq_false. intros (_ & Hg & m & Em2 & He)%elem_of_candidates.
      rewrite (Hsame2 q Hq), En in Em2. injection Em2 as <-.
      rewrite Hclk2 in He. rewrite Hg, He in Hb. discriminate Hb.
  - intros q Hq En. now rewrite Hfs3, (Hsame2 q Hq), En.
  - exact (same_process_trans _ _ _ (same_process_trans _ _ _ F2 F3) F4).
  - destruct o4 as [[]|e]; exact H.
Qed.

Lemma log_path_not_logs c w : log_path c w <> "logs".
Proof.
  unfold log_path, OS.path_join.
  destruct (Str.startswith "/" _) eqn:Hs.
  - intros E. rewrite E in Hs. discriminate Hs.
  - cbn [String.eqb]. change (bool_decide (Str.last_char "logs" = Some "/"%char)) with false.
    cbn [orb]. rewrite <- StrFacts.append_assoc. apply PathFacts.below_logs_ne.
Qed.

End StageFacts.

(** X4.  When [logs] exists as a regular file, a call with a command
    identifier raises [FileExistsError] out of [makedirs]: the file
    system is unchanged, no other call into it is made, and the logger is
    left with the console handler alone. *)
Theorem setup_logger_logs_is_a_file (name : option string) (c : string) (w : World)
    (t : Q) (u : option exn) :
  c <> "" ->
  fs w !! "logs" = Some (File t u) ->
  exists w',
    setup_logger name (Some c) w = (Raise FileExistsError, w') /\
    fs w' = fs w /\
    syscalls w' = syscalls w ++ [SysMakedirs "logs"] /\
    handlers <$> loggers w' !! Logging.logger_key name
    = Some [console_handler_of (env_level w)].
Proof.
  intros Hc El. destruct c as [|a s]; [congruence|].
  destruct (SetupFacts.setup_logger_file name a s w) as (o2 & w2 & Em & H).
  destruct (SetupFacts.makedirs_spec "logs" (console_world name w))
    as (o2' & w2' & Em' & F2 & Hs2 & Hfs2).
  rewrite Em in Em'. injection Em' as <- <-.
  change (fs (console_world name w)) with (fs w) in Hfs2. rewrite El in Hfs2.
  destruct Hfs2 as [-> Hfs2]. exists w2. split; [exact H|]. split; [exact Hfs2|].
  split; [exact Hs2|]. destruct F2 as (_ & _ & _ & ->).
  unfold console_world. cbn [set_loggers loggers]. now rewrite lookup_insert_eq.
Qed.

Lemma setup_logger_logs_is_a_file_witness :
  let w := set_fs (fun _ => <["logs" := File 0 None]> ∅) sample_world in
  exists w',
    setup_logger None (Some "analyze") w = (Raise FileExistsError, w') /\
    fs w' = fs w.
Proof.
  intros w.
  destruct (setup_logger_logs_is_a_file None "analyze" w 0 None) as (w' & E & Hfs & _).
  - discriminate.
  - by_computation.
  - exists w'. split; assumption.
Defined.

(** X5.  When [logs] can be used but the path of the log file is a
    directory, the [IsADirectoryError] of [open] leaves [setup_logger].
    The reaper has run by then: the stale logs that could be deleted are
    gone, while the logger is left with the console handler alone. *)
Theorem setup_logger_open_fails (name : option string) (c : string) (w : World) :
  let p := log_path c w in
  c <> "" ->
  (forall t u, fs w !! "logs" <> Some (File t u)) ->
  is_dir (fs w !! p) = true ->
  exists w',
    setup_logger name (Some c) w = (Raise IsADirectoryError, w') /\
    (forall q n,
       OS.glob_match "logs" "*.log" q = true -> fs w !! q = Some n ->
       (st_mtime n < cutoff_time (clock w) 7)%Q -> unlinkable n = true ->
       fs w' !! q = None) /\
    handlers <$> loggers w' !! Logging.logger_key name
    = Some [console_handler_of (env_level w)].
Proof.
  intros p Hc Hlogs Hdir. destruct c as [|a s]; [congruence|].
  destruct (StageFacts.setup_logger_stages name a s w Hlogs)
    as (w3 & o4 & w4 & Hd3 & _ & Hsome & Hnone & _ & Eo & F & E).
  fold p in Eo, E.
  assert (Hpl : p <> "logs") by apply StageFacts.log_path_not_logs.
  assert (Hopen : o4 = Raise IsADirectoryError /\ fs w4 = fs w3).
  { unfold OS.open_append in Eo. cbn [log_syscall fs] in Eo.
    destruct (fs w !! p) as [[t u|t]|] eqn:Ep; try discriminate Hdir.
    rewrite (Hsome p _ Hpl Ep) in Eo. cbn [unlinkable] in Eo.
    rewrite andb_false_r in Eo. injection Eo as <- <-. split; reflexivity. }
  destruct Hopen as [-> Hfs4]. cbn [is_return] in E.
  exists w4. split; [exact E|]. split.
  - intros q n Hg En Hlt Hu. rewrite Hfs4.
    rewrite (Hsome q n (PathFacts.glob_match_ne _ _ _ Hg) En), Hg, Hu.
    unfold expired. apply Qltb_lt in Hlt. now rewrite Hlt.
  - destruct F as (_ & _ & _ & ->).
    unfold console_world. cbn [set_loggers loggers]. now rewrite lookup_insert_eq.
Qed.

Lemma setup_logger_open_fails_witness :
  let w := set_fs (insert "logs/analyze-20240115.log" (Dir 0)) sample_world in
  exists w',
    setup_logger None (Some "analyze") w = (Raise IsADirectoryError, w') /\
    fs w' !! "logs/old.log" = None.
Proof.
  intros w.
  destruct (setup_logger_open_fails None "analyze" w) as (w' & E & Hgone & _).
  - discriminate.
  - intros t u. vm_compute. discriminate.
  - by_computation.
  - exists w'. split; [exact E|].
    apply (Hgone "logs/old.log" (File 0 None)); by_computation.
Defined.

(** ** More on the reaper *)

Module ReaperFacts.
Import Str StrFacts.

Lemma all_chars_app f a b :
  all_chars f (a +:+ b) = (all_chars f a && all_chars f b)%bool.
Proof.
  induction a as [|c a IH]; [reflexivity|].
  rewrite append_cons. cbn [all_chars]. now rewrite IH, andb_assoc.
Qed.

(** A longer retention window has an earlier cutoff. *)
Lemma cutoff_time_mono now d1 d2 :
  d1 <= d2 -> (cutoff_time now d2 <= cutoff_time now d1)%Q.
Proof.
  intros H. unfold cutoff_time, Qminus.
  apply Qplus_le_r, Qopp_le_compat. rewrite <- Zle_Qle. lia.
Qed.

(** What [cleanup_old_logs] removes, entry by entry. *)
Lemma cleanup_old_logs_lookup log_dir days w p :
  fs (snd (cleanup_old_logs log_dir days w)) !! p =
  match fs w !! p with
  | Some n =>
      if bool_decide (p ∈ candidates log_dir (retention days) w) && unlinkable n
      then None else Some n
  | None => None
  end.
Proof.
  destruct (cleanup_old_logs_spec log_dir days w) as (w' & R & _ & Hfs & _).
  rewrite R. apply Hfs.
Qed.

End ReaperFacts.

(** X6.  Running [cleanup_old_logs] a second time right after the first
    changes nothing: what the first pass could delete is gone, and what
    it could not delete fails again. *)
Theorem cleanup_old_logs_idempotent (log_dir : string) (days : option Z) (w : World) :
  let w1 := snd (cleanup_old_logs log_dir days w) in
  let w2 := snd (cleanup_old_logs log_dir days w1) in
  fst (cleanup_old_logs log_dir days w1) = Return tt /\ fs w2 = fs w1.
Proof.
  intros w1 w2.
  destruct (cleanup_old_logs_spec log_dir days w) as (x1 & R1 & F1 & Hfs1 & _).
  assert (E1 : w1 = x1) by (unfold w1; now rewrite R1). 
  destruct (cleanup_old_logs_spec log_dir days w1) as (x2 & R2 & _ & Hfs2 & _).
  assert (E2 : w2 = x2) by (unfold w2; now rewrite R2).
  split; [now rewrite R2|]. rewrite E2. apply map_eq. intros q. rewrite Hfs2.
  destruct (fs w1 !! q) as [n|] eqn:En; [|reflexivity].
  destruct (unlinkable n) eqn:Hu; [|now rewrite andb_false_r].
  rewrite bool_decide_eq_false_2; [reflexivity|].
  intros (Hd & Hg & m & Em & He)%elem_of_candidates.
  rewrite En in Em. injection Em as <-.
  rewrite E1 in En, Hd, He. rewrite Hfs1 in En.
  destruct (fs w !! q) as [n0|] eqn:En0; [|discriminate En].
  destruct (bool_decide (q ∈ candidates log_dir (retention days) w)) eqn:Hc.
  - destruct (unlinkable n0) eqn:Hu0; cbn [andb] in En; [discriminate En|].
    injection En as ->. congruence.
  - cbn [andb] in En. injection En as ->.
    apply bool_decide_eq_false in Hc. apply Hc, elem_of_candidates.
    split; [|split; [exact Hg|]].
    + rewrite Hfs1 in Hd. destruct (fs w !! log_dir); [eauto|].
      destruct Hd as [? Hd]. discriminate Hd.
    + exists n. split; [exact En0|].
      destruct F1 as (_ & Hclk & _). now rewrite <- Hclk.
Qed.

(** X7.  A shorter retention window removes at least as much: an entry
    that a call with window [d2] removes is also removed by a call with a
    window [d1 <= d2] on the same world. *)
Theorem cleanup_old_logs_window_monotone (log_dir : string) (d1 d2 : Z) (w : World)
    (p : string) :
  d1 <= d2 ->
  is_Some (fs w !! p) ->
  fs (snd (cleanup_old_logs log_dir (Some d2) w)) !! p = None ->
  fs (snd (cleanup_old_logs log_dir (Some d1) w)) !! p = None.
Proof.
  intros Hd [n En]. rewrite !ReaperFacts.cleanup_old_logs_lookup, En. cbn [retention].
  destruct (unlinkable n); [|now rewrite !andb_false_r].
  rewrite !andb_true_r.
  destruct (bool_decide (p ∈ candidates log_dir d2 w)) eqn:H2; [intros _|discriminate].
  apply bool_decide_eq_true in H2.
  apply elem_of_candidates in H2 as (Hdir & Hg & m & Em & He).
  rewrite bool_decide_eq_true_2; [reflexivity|].
  apply elem_of_candidates. split; [exact Hdir|]. split; [exact Hg|].
  exists m. split; [exact Em|]. unfold expired in *. apply Qltb_lt. apply Qltb_lt in He.
  eapply Qlt_le_trans; [exact He|]. now apply ReaperFacts.cutoff_time_mono.
Qed.

Lemma cleanup_old_logs_window_monotone_witness :
  fs (snd (cleanup_old_logs "logs" (Some 1) sample_world)) !! "logs/old.log" = None.
Proof.
  apply (cleanup_old_logs_window_monotone "logs" 1 7 sample_world "logs/old.log").
  - lia.
  - exists (File 0 None). by_computation.
  - by_computation.
Defined.



(** ** Calling the configurator again *)

Module AgainFacts.
Import SetupFacts.

Lemma log_path_same c w w' :
  clock w' = clock w -> utcoffset w' = utcoffset w -> log_path c w' = log_path c w.
Proof. unfold log_path, today. now intros -> ->. Qed.

Lemma env_level_same w w' : environ w' = environ w -> env_level w' = env_level w.
Proof. unfold env_level. now intros ->. Qed.

(** A file created at the time of the clock is not stale. *)
Lemma fresh_not_expired now u : expired (cutoff_time now 7) (File now u) = false.
Proof.
  unfold expired. cbn [st_mtime]. destruct (Qltb now (cutoff_time now 7)) eqn:H; [|reflexivity].
  apply Qltb_lt in H. unfold cutoff_time, Qminus in H.
  assert (H0 : (now + 0 < now + - inject_Z (7 * 24 * 60 * 60))%Q)
    by (now rewrite Qplus_0_r).
  apply Qplus_lt_r in H0. vm_compute in H0. discriminate H0.
Qed.

(** A returning call found [logs] usable. *)
Lemma returns_logs_usable name a s w w1 :
  setup_logger name (Some (String a s)) w = (Return (Logging.logger_key name), w1) ->
  forall t u, fs w !! "logs" <> Some (File t u).
Proof.
  intros E t u El.
  destruct (setup_logger_file name a s w) as (o2 & w2 & Em & H).
  destruct (makedirs_return _ _ _ _ Em) as (Ho & _).
  change (fs (console_world name w)) with (fs w) in Ho. rewrite El in Ho.
  destruct o2 as [[]|e]; [discriminate Ho|]. rewrite H in E. discriminate E.
Qed.

End AgainFacts.

(** X9.  A call of [setup_logger] that returned can be repeated at once
    with the same arguments: the second call returns too and leaves the
    file system, the registry of loggers and the environment exactly as
    the first call left them. *)
Theorem setup_logger_idempotent (name command_name : option string) (w w1 : World) :
  setup_logger name command_name w = (Return (Logging.logger_key name), w1) ->
  exists w2,
    setup_logger name command_name w1 = (Return (Logging.logger_key name), w2) /\
    fs w2 = fs w1 /\ loggers w2 = loggers w1 /\ environ w2 = environ w1.
Proof.
  intros E.
  (* the registry and the environment *)
  destruct (RegistryFacts.setup_logger_registry name command_name w)
    as (o & x1 & Ex1 & _ & He1 & Hk1 & Hz1 & Hl1).
  rewrite E in Ex1. injection Ex1 as <- <-. cbn [is_return] in Hl1.
  destruct (RegistryFacts.setup_logger_registry name command_name w1)
    as (o' & w2 & E2 & Hret & He2 & _ & _ & Hl2).
  assert (Hreg : is_return o' = true -> loggers w2 = loggers w1).
  { intros Hr. rewrite Hl2, Hl1, Hr, insert_insert_eq.
    rewrite (AgainFacts.env_level_same _ _ He1).
    rewrite (AgainFacts.log_path_same _ _ _ Hk1 Hz1). reflexivity. }
  enough (Hfs : is_return o' = true /\ fs w2 = fs w1).
  { destruct Hfs as [Hr Hfs]. exists w2. rewrite E2, (Hret Hr). auto. }
  (* the file system *)
  destruct (truthy command_name) eqn:Hc.
  2: { rewrite (SetupFacts.setup_logger_plain _ _ _ Hc) in E2.
       injection E2 as <- <-. split; reflexivity. }
  destruct command_name as [[|a s]|]; try discriminate Hc.
  set (p := log_path (String a s) w).
  assert (Hpl : p <> "logs") by apply StageFacts.log_path_not_logs.
  destruct (StageFacts.setup_logger_stages name a s w
              (AgainFacts.returns_logs_usable _ _ _ _ _ E))
    as (w3 & o4 & w4 & Hd3 & _ & Hsome & Hnone & Hclk3 & Eo & F & Es).
  fold p in Eo, Es. rewrite E in Es.
  destruct o4 as [[]|e]; [|discriminate Es]. cbn [is_return] in Es.
  injection Es as Ew1.
  destruct (SetupFacts.open_append_spec p w3) as (o4' & w4' & Eo' & _ & _ & Hother4 & Hp4).
  rewrite Eo in Eo'. injection Eo' as <- <-. destruct Hp4 as [Hcan Hp4].
  assert (Hfs1 : fs w1 = fs w4) by (rewrite Ew1; reflexivity).
  assert (Hfile : exists t u, fs w1 !! p = Some (File t u)).
  { rewrite Hfs1, Hp4. unfold can_open in Hcan.
    destruct (fs w3 !! p) as [[t u|t]|]; [eauto|discriminate Hcan|eauto]. }
  assert (Hlogs1 : forall t u, fs w1 !! "logs" <> Some (File t u)).
  { intros t u. rewrite Hfs1, Hother4 by congruence.
    destruct (fs w3 !! "logs") as [[? ?|?]|]; try discriminate Hd3. discriminate. }
  destruct (StageFacts.setup_logger_stages name a s w1 Hlogs1)
    as (v3 & q4 & v4 & _ & Hlogs3' & Hsome' & Hnone' & _ & Eov & _ & Ev).
  rewrite (AgainFacts.log_path_same _ _ _ Hk1 Hz1) in Eov, Ev. fold p in Eov, Ev.
  assert (Hstale : forall q n, q <> "logs" -> fs w3 !! q = Some n ->
            OS.glob_match "logs" "*.log" q && expired (cutoff_time (clock w) 7) n
            && unlinkable n = false).
  { intros q n Hq En. destruct (fs w !! q) as [n0|] eqn:En0.
    - rewrite (Hsome q n0 Hq En0) in En.
      destruct (OS.glob_match "logs" "*.log" q && expired (cutoff_time (clock w) 7) n0
                && unlinkable n0) eqn:Hb; [discriminate En|].
      injection En as <-. exact Hb.
    - rewrite (Hnone q Hq En0) in En. discriminate En. }
  assert (Hv3 : fs v3 = fs w1).
  { apply map_eq. intros q. destruct (decide (q = "logs")) as [->|Hq].
    - destruct (fs w1 !! "logs") as [d|] eqn:Ed; [now apply Hlogs3'|].
      rewrite Hfs1, Hother4 in Ed by congruence. rewrite Ed in Hd3. discriminate Hd3.
    - destruct (fs w1 !! q) as [n|] eqn:En; [|now apply Hnone'].
      rewrite (Hsome' q n Hq En), Hk1.
      enough (Hb : OS.glob_match "logs" "*.log" q && expired (cutoff_time (clock w) 7) n
                   && unlinkable n = false) by now rewrite Hb.
      rewrite Hfs1 in En. destruct (decide (q = p)) as [->|Hqp].
      + rewrite Hp4 in En. destruct (fs w3 !! p) as [m|] eqn:Em.
        * injection En as <-. now apply Hstale.
        * injection En as <-. rewrite Hclk3, AgainFacts.fresh_not_expired.
          now rewrite andb_false_r.
      + rewrite (Hother4 q Hqp) in En. now apply Hstale. }
  assert (Hopen : q4 = Return tt /\ fs v4 = fs v3).
  { unfold OS.open_append in Eov. cbn [log_syscall fs] in Eov.
    destruct Hfile as (t & u & Hf). rewrite Hv3, Hf in Eov.
    injection Eov as <- <-. split; reflexivity. }
  destruct Hopen as [-> Hv4]. cbn [is_return] in Ev.
  rewrite E2 in Ev. injection Ev as -> ->. split; [reflexivity|].
  cbn [set_loggers fs]. now rewrite Hv4.
Qed.

Lemma setup_logger_idempotent_witness :
  let w1 := snd (setup_logger (Some "csa") (Some "analyze") sample_world) in
  exists w2,
    setup_logger (Some "csa") (Some "analyze") w1 = (Return "csa", w2) /\
    fs w2 = fs w1 /\ loggers w2 = loggers w1 /\ environ w2 = environ w1.
Proof.
  intros w1.
  apply (setup_logger_idempotent (Some "csa") (Some "analyze") sample_world w1).
  assert (Ho : fst (setup_logger (Some "csa") (Some "analyze") sample_world) = Return "csa")
    by by_computation.
  unfold w1. destruct (setup_logger (Some "csa") (Some "analyze") sample_world) as [o x].
  cbn [fst snd] in *. now rewrite Ho.
Defined.

(** ** More on the formatter, the threshold and the log path *)

Module LineFacts.
Import Str StrFacts.

Lemma take_continuation_idem k : forall s t,
  take_continuation k s = Some t -> take_continuation k t = Some t.
Proof.
  induction k as [|k IH]; intros s t; cbn [take_continuation]; [easy|].
  destruct s as [|b s]; [discriminate|]. destruct (is_continuation b) eqn:Hb; [|discriminate].
  destruct (take_continuation k s) as [t'|] eqn:E; [|discriminate].
  intros [= <-]. cbn [take_continuation]. now rewrite Hb, (IH _ _ E).
Qed.

(** The first character of a string is one character. *)
Lemma head_idem s c : head s = Some c -> head c = Some c.
Proof.
  destruct s as [|a s]; [discriminate|]. cbn [head]. intros [= <-].
  destruct (take_continuation (char_width a - 1) s) as [t|] eqn:E.
  - cbn [head]. now rewrite (take_continuation_idem _ _ _ E).
  - cbn [head]. now destruct (char_width a - 1)%nat.
Qed.

(** Every short level name is one character. *)
Lemma short_name_char name first :
  head first = Some first ->
  head (Logging.dict_get CustomFormatter.LEVEL_MAP name first)
  = Some (Logging.dict_get CustomFormatter.LEVEL_MAP name first).
Proof.
  intros H. unfold CustomFormatter.LEVEL_MAP. cbn [Logging.dict_get].
  repeat match goal with
         | |- context [String.eqb ?k name] => destruct (String.eqb k name)
         end; try reflexivity; exact H.
Qed.

Lemma append_inv_head p a b : p +:+ a = p +:+ b -> a = b.
Proof.
  induction p as [|c p IH]; [easy|]. rewrite !append_cons. intros [= H]. now apply IH.
Qed.

Lemma append_inv_tail r : forall a b, a +:+ r = b +:+ r -> a = b.
Proof.
  assert (Hlen : forall a b, a +:+ r = b +:+ r -> String.length a = String.length b).
  { intros a b H. apply (f_equal String.length) in H.
    rewrite !PathFacts.length_append in H. lia. }
  induction a as [|c a IH]; intros [|d b] H.
  - reflexivity.
  - apply Hlen in H. discriminate H.
  - apply Hlen in H. discriminate H.
  - rewrite !append_cons in H. injection H as -> H. f_equal. now apply IH.
Qed.

Lemma startswith_slash_app c rest :
  c <> "" -> startswith "/" (c +:+ rest) = startswith "/" c.
Proof.
  destruct c as [|a s]; [congruence|]. intros _. rewrite append_cons.
  unfold startswith. cbn [drop_prefix]. now destruct (Ascii.eqb "/" a).
Qed.

(** The decimal digits of a number hold no [/]. *)
Lemma uint_no_slash d :
  all_chars (fun c => negb (is_slash c)) (NilEmpty.string_of_uint d) = true.
Proof. induction d; cbn [NilEmpty.string_of_uint all_chars]; try rewrite IHd; reflexivity. Qed.

Lemma of_Z_no_slash n : all_chars (fun c => negb (is_slash c)) (of_Z n) = true.
Proof.
  unfold of_Z, NilZero.string_of_int.
  destruct (Z.to_int n) as [d|d]; unfold NilZero.string_of_uint;
    destruct d; try apply uint_no_slash; try reflexivity;
    cbn [all_chars]; rewrite ?uint_no_slash; try reflexivity;
    cbn [NilEmpty.string_of_uint all_chars]; now rewrite uint_no_slash.
Qed.

Lemma zeros_no_slash k : all_chars (fun c => negb (is_slash c)) (zeros k) = true.
Proof. induction k; cbn [zeros all_chars]; [reflexivity|now rewrite IHk]. Qed.

Lemma format_d_no_slash width n :
  all_chars (fun c => negb (is_slash c)) (format_d width n) = true.
Proof.
  unfold format_d. destruct (n <? 0); cbn [all_chars];
    now rewrite ReaperFacts.all_chars_app, zeros_no_slash, of_Z_no_slash.
Qed.

Lemma today_no_slash w : all_chars (fun c => negb (is_slash c)) (today w) = true.
Proof.
  unfold today. cbv [Datetime.strftime Datetime.directive Ascii.eqb Bool.eqb].
  now rewrite !ReaperFacts.all_chars_app, !format_d_no_slash.
Qed.

End LineFacts.

Module SinkFacts.
Import Str StrFacts.

(** The file sink of a logger after a call, if any, is on [log_path]. *)
Lemma file_sink_path name cmd w l h f m e :
  loggers (snd (setup_logger name cmd w)) !! Logging.logger_key name = Some l ->
  In h (handlers l) -> h_sink h = FileSink f m e ->
  exists a s, cmd = Some (String a s) /\ f = log_path (String a s) w.
Proof.
  destruct (SetupFacts.setup_logger_logger name cmd w) as (o & w' & pr & E & _ & Hl).
  rewrite E. cbn [snd]. rewrite Hl. intros [= <-]. cbn [handlers].
  intros [<-|Hin]; [discriminate|].
  destruct (truthy cmd) eqn:Hc; cbn [andb] in Hin; [|destruct Hin].
  destruct (is_return o); [|destruct Hin]. destruct Hin as [<-|[]].
  destruct cmd as [[|a s]|]; try discriminate Hc.
  intros [= <- _ _]. eauto.
Qed.

Lemma entry_name_logs name :
  name <> "" -> all_chars (fun x => negb (is_slash x)) name = true ->
  OS.entry_name "logs" ("logs/" +:+ name) = Some name.
Proof.
  intros Hne Hns. unfold OS.entry_name.
  change ("logs" +:+ "/") with "logs/".
  rewrite !append_cons, append_nil_l. cbn [drop_prefix].
  rewrite !Ascii.eqb_refl. apply String.eqb_neq in Hne. now rewrite Hne, Hns.
Qed.

(** The log file of a command without [/] is an entry of [logs] that the
    pattern of the reaper matches. *)
Lemma log_path_glob_match c w :
  c <> "" -> all_chars (fun x => negb (is_slash x)) c = true ->
  OS.glob_match "logs" "*.log" (log_path c w) = true.
Proof.
  intros Hc Hns.
  assert (Hrel : startswith "/" c = false).
  { destruct c as [|a s]; [congruence|]. cbn [all_chars] in Hns.
    apply andb_true_iff in Hns as [Ha _]. unfold startswith. cbn [drop_prefix].
    unfold is_slash in Ha. rewrite Ascii.eqb_sym. now destruct (Ascii.eqb a "/"). }
  rewrite (PathFacts.log_path_relative c w Hc Hrel).
  unfold OS.glob_match. rewrite entry_name_logs.
  - apply fnmatch_log. exists (c +:+ "-" +:+ today w). now rewrite !append_assoc.
  - destruct c as [|a s]; [congruence|]. rewrite append_cons. discriminate.
  - rewrite !ReaperFacts.all_chars_app, Hns, LineFacts.today_no_slash. reflexivity.
Qed.


(** The log file of a command without [/] is the entry
    [{c}-{YYYYMMDD}.log] of [logs]. *)
Lemma log_path_entry c w :
  c <> "" -> all_chars (fun x => negb (is_slash x)) c = true ->
  OS.entry_name "logs" (log_path c w) = Some (c +:+ "-" +:+ today w +:+ ".log").
Proof.
  intros Hc Hns.
  assert (Hrel : startswith "/" c = false).
  { destruct c as [|a s]; [congruence|]. cbn [all_chars] in Hns.
    apply andb_true_iff in Hns as [Ha _]. unfold startswith. cbn [drop_prefix].
    unfold is_slash in Ha. rewrite Ascii.eqb_sym. now destruct (Ascii.eqb a "/"). }
  rewrite (PathFacts.log_path_relative c w Hc Hrel). apply entry_name_logs.
  - destruct c as [|a s]; [congruence|]. rewrite append_cons. discriminate.
  - rewrite !ReaperFacts.all_chars_app, Hns, LineFacts.today_no_slash. reflexivity.
Qed.

End SinkFacts.

(** ** The cleanup pass and the opening of the log file *)




(** ** The level code and the log file of a command *)

(** X10.  [CustomFormatter.format] with the template of the module
    leaves the world alone; it raises [IndexError] on a record whose
    level name is empty, and for every other record, created in the
    years 1000 to 9999 of local time, it returns the line
    [{timestamp} [{code}] : {message}] with a level code of exactly one
    character, followed by the exception and stack text of the record
    when it carries any. *)
Theorem CustomFormatter_format_one_letter (record : LogRecord) (w : World) :
  let r := CustomFormatter.format the_formatter record w in
  snd r = w /\
  (levelname record = "" -> fst r = Raise IndexError) /\
  (levelname record <> "" ->
     1000 <= year (local_time w record) <= 9999 ->
     exists code,
       Str.head code = Some code /\
       fst r = Return (Logging.add_details record
                         (timestamp (local_time w record) (int_of_Q (msecs record))
                          +:+ " [" +:+ code +:+ "] : " +:+ message record))).
Proof.
  intros r. unfold r. destruct (Str.head (levelname record)) as [first|] eqn:En.
  - rewrite (FormatFacts.format_with_short record w first _ En eq_refl).
    split; [reflexivity|]. split; [intros E; rewrite E in En; discriminate En|].
    intros _ _. eexists. split; [|reflexivity].
    apply LineFacts.short_name_char. exact (LineFacts.head_idem _ _ En).
  - unfold CustomFormatter.format, bind, CustomFormatter.first_char. rewrite En.
    split; [reflexivity|]. split; [reflexivity|].
    intros Hne. destruct (levelname record); [congruence|discriminate En].
Qed.

Lemma CustomFormatter_format_one_letter_witness :
  fst (CustomFormatter.format the_formatter
         (mkLogRecord "" (1705314600123 # 1000) 123 "disk almost full" None None None None)
         sample_world)
  = Raise IndexError.
Proof.
  apply (proj1 (proj2 (CustomFormatter_format_one_letter
           (mkLogRecord "" (1705314600123 # 1000) 123 "disk almost full" None None None None)
           sample_world))).
  reflexivity.
Defined.

(** X11.  On one day, two different command identifiers without [/]
    never share a log file: the file handlers that calls of
    [setup_logger] on the same world attach for them are on two
    different entries of the directory [logs]. *)
Theorem setup_logger_one_file_per_command (name1 name2 : option string) (c1 c2 : string)
    (w : World) (l1 l2 : Logger) (h1 h2 : Handler) (f1 f2 m1 e1 m2 e2 : string) :
  Str.all_chars (fun x => negb (Str.is_slash x)) c1 = true ->
  Str.all_chars (fun x => negb (Str.is_slash x)) c2 = true ->
  c1 <> c2 ->
  loggers (snd (setup_logger name1 (Some c1) w)) !! Logging.logger_key name1 = Some l1 ->
  In h1 (handlers l1) -> h_sink h1 = FileSink f1 m1 e1 ->
  loggers (snd (setup_logger name2 (Some c2) w)) !! Logging.logger_key name2 = Some l2 ->
  In h2 (handlers l2) -> h_sink h2 = FileSink f2 m2 e2 ->
  exists n1 n2,
    OS.entry_name "logs" f1 = Some n1 /\ OS.entry_name "logs" f2 = Some n2 /\ n1 <> n2.
Proof.
  intros N1 N2 Hne L1 I1 S1 L2 I2 S2.
  destruct (SinkFacts.file_sink_path _ _ _ _ _ _ _ _ L1 I1 S1) as (a1 & s1 & [= ->] & ->).
  destruct (SinkFacts.file_sink_path _ _ _ _ _ _ _ _ L2 I2 S2) as (a2 & s2 & [= ->] & ->).
  do 2 eexists.
  split; [apply SinkFacts.log_path_entry; [discriminate|exact N1]|].
  split; [apply SinkFacts.log_path_entry; [discriminate|exact N2]|].
  intros E. apply Hne. now apply LineFacts.append_inv_tail in E.
Qed.

Lemma setup_logger_one_file_per_command_witness :
  exists n1 n2,
    OS.entry_name "logs" "logs/analyze-20240115.log" = Some n1 /\
    OS.entry_name "logs" "logs/sequence-20240115.log" = Some n2 /\ n1 <> n2.
Proof.
  set (h1 := file_handler_of "logs/analyze-20240115.log" 10).
  set (h2 := file_handler_of "logs/sequence-20240115.log" 10).
  apply (setup_logger_one_file_per_command (Some "a") (Some "b") "analyze" "sequence"
           sample_world (mkLogger 10 [console_handler_of 10; h1] false)
           (mkLogger 10 [console_handler_of 10; h2] false) h1 h2
           _ _ "a" "utf-8" "a" "utf-8").
  - by_computation.
  - by_computation.
  - discriminate.
  - by_computation.
  - right; left; reflexivity.
  - reflexivity.
  - by_computation.
  - right; left; reflexivity.
  - reflexivity.
Defined.

(** X12.  The log file that [setup_logger] opens for a command
    identifier without [/] is an entry of [logs] that the pattern of the
    reaper matches.  So the file is within reach of the retention policy:
    in any later world where it is older than the cutoff and can be
    deleted, [cleanup_old_logs] on [logs] removes it. *)
Theorem setup_logger_file_is_reapable (name : option string) (c : string) (w : World)
    (l : Logger) (h : Handler) (f m e : string) :
  Str.all_chars (fun x => negb (Str.is_slash x)) c = true ->
  loggers (snd (setup_logger name (Some c) w)) !! Logging.logger_key name = Some l ->
  In h (handlers l) -> h_sink h = FileSink f m e ->
  OS.glob_match "logs" "*.log" f = true /\
  forall (days : option Z) (w' : World) (t : Q),
    is_Some (fs w' !! "logs") ->
    fs w' !! f = Some (File t None) ->
    (t < cutoff_time (clock w') (retention days))%Q ->
    fs (snd (cleanup_old_logs "logs" days w')) !! f = None.
Proof.
  intros Hns L I S.
  destruct (SinkFacts.file_sink_path _ _ _ _ _ _ _ _ L I S) as (a & s & [= ->] & ->).
  assert (Hg : OS.glob_match "logs" "*.log" (log_path (String a s) w) = true)
    by (apply SinkFacts.log_path_glob_match; [discriminate|exact Hns]).
  split; [exact Hg|]. intros days w' t Hd Ef Hlt.
  rewrite ReaperFacts.cleanup_old_logs_lookup, Ef. cbn [unlinkable].
  rewrite bool_decide_eq_true_2; [reflexivity|].
  apply elem_of_candidates. split; [exact Hd|]. split; [exact Hg|].
  exists (File t None). split; [exact Ef|]. now apply Qltb_lt.
Qed.

Lemma setup_logger_file_is_reapable_witness :
  OS.glob_match "logs" "*.log" "logs/analyze-20240115.log" = true.
Proof.
  set (h := file_handler_of "logs/analyze-20240115.log" 10).
  set (l := mkLogger 10 [console_handler_of 10; h] false).
  assert (El : loggers (snd (setup_logger (Some "csa") (Some "analyze") sample_world))
               !! Logging.logger_key (Some "csa") = Some l) by by_computation.
  apply (proj1 (setup_logger_file_is_reapable (Some "csa") "analyze" sample_world l h
                  "logs/analyze-20240115.log" "a" "utf-8" eq_refl El
                  (or_intror (or_introl eq_refl)) eq_refl)).
Defined.



(** ** Seconds and milliseconds of the timestamp *)

Module RoundFacts.

Lemma Qfloor_unique q m :
  (inject_Z m <= q)%Q -> (q < inject_Z m + 1)%Q -> Qfloor q = m.
Proof.
  intros Hl Hu.
  assert (H1 : (inject_Z (Qfloor q) <= q)%Q) by apply Qfloor_le.
  assert (H2 : (q < inject_Z (Qfloor q + 1))%Q) by apply Qlt_floor.
  rewrite inject_Z_plus in H2. change (inject_Z 1) with 1%Q in H2.
  assert (Ha : (inject_Z (Qfloor q) < inject_Z (m + 1))%Q)
    by (rewrite inject_Z_plus; change (inject_Z 1) with 1%Q; lra).
  assert (Hb : (inject_Z m < inject_Z (Qfloor q + 1))%Q)
    by (rewrite inject_Z_plus; change (inject_Z 1) with 1%Q; lra).
  rewrite <- Zlt_Qlt in Ha, Hb. lia.
Qed.

(** Above the half, [round] goes up. *)
Lemma round_half_even_up q m :
  (inject_Z m + (1 # 2) < q)%Q -> (q < inject_Z m + 1)%Q ->
  Datetime.round_half_even q = m + 1.
Proof.
  intros Hl Hu. unfold Datetime.round_half_even.
  rewrite (Qfloor_unique q m) by lra.
  assert (Hc : (q - inject_Z m ?= 1 # 2)%Q = Gt) by (rewrite <- Qgt_alt; lra).
  now rewrite Hc.
Qed.

Lemma round_half_even_integer q m :
  (q == inject_Z m)%Q -> Datetime.round_half_even q = m.
Proof.
  intros E. unfold Datetime.round_half_even.
  rewrite (Qfloor_comp _ _ E), Qfloor_Z.
  assert (Hc : (q - inject_Z m ?= 1 # 2)%Q = Lt) by (rewrite <- Qlt_alt, E; lra).
  now rewrite Hc.
Qed.

Lemma int_of_Q_999 q : (999 <= q)%Q -> (q < 1000)%Q -> int_of_Q q = 999.
Proof.
  destruct q as [n d]. unfold Qle, Qlt, int_of_Q. cbn [Qnum Qden].
  intros Hl Hu. rewrite Z.quot_div_nonneg by lia.
  symmetry. apply (Z.div_unique n (Z.pos d) 999 (n - 999 * Z.pos d)); lia.
Qed.

End RoundFacts.

(** X14.  The seconds and the milliseconds of a rendered time come from
    two roundings: [datetime.fromtimestamp] rounds [created] to the
    nearest microsecond, [int(record.msecs)] truncates.  For a record
    created less than half a microsecond before a full second, the time
    shows that next second followed by [.999]. *)
Theorem formatTime_rounds_seconds_up (record : LogRecord) (w : World) (k : Z) :
  (inject_Z k + 1 - (1 # 2000000) < created record)%Q ->
  (created record < inject_Z k + 1)%Q ->
  (999 <= msecs record)%Q -> (msecs record < 1000)%Q ->
  CustomFormatter.formatTime record (Some "%Y-%m-%d %H:%M:%S") w
  = (Return (Datetime.strftime "%Y-%m-%d %H:%M:%S"
               (Datetime.fromtimestamp (utcoffset w) (inject_Z (k + 1))) +:+ ".999"), w).
Proof.
  intros Hl Hu Hm1 Hm2.
  assert (Hdt : Datetime.fromtimestamp (utcoffset w) (created record)
                = Datetime.fromtimestamp (utcoffset w) (inject_Z (k + 1))).
  { unfold Datetime.fromtimestamp.
    rewrite (RoundFacts.round_half_even_up (created record * inject_Z 1000000)
               (k * 1000000 + 999999)).
    - rewrite (RoundFacts.round_half_even_integer
                 (inject_Z (k + 1) * inject_Z 1000000) ((k + 1) * 1000000))
        by (now rewrite <- inject_Z_mult).
      replace (k * 1000000 + 999999 + 1) with ((k + 1) * 1000000) by lia. reflexivity.
    - rewrite inject_Z_plus, inject_Z_mult.
      change (inject_Z 1000000) with (1000000 # 1)%Q.
      change (inject_Z 999999) with (999999 # 1)%Q. lra.
    - rewrite inject_Z_plus, inject_Z_mult.
      change (inject_Z 1000000) with (1000000 # 1)%Q.
      change (inject_Z 999999) with (999999 # 1)%Q. lra. }
  unfold CustomFormatter.formatTime.
  change (String.eqb "%Y-%m-%d %H:%M:%S" "") with false. cbv iota.
  rewrite Hdt, (RoundFacts.int_of_Q_999 _ Hm1 Hm2).
  change (Str.format_d 3 999) with "999". reflexivity.
Qed.

Lemma formatTime_rounds_seconds_up_witness :
  fst (CustomFormatter.formatTime
         (mkLogRecord "INFO" (17053146009999996 # 10000000) (9999996 # 10000) "m" None None None None)
         (Some "%Y-%m-%d %H:%M:%S") sample_world)
  = Return "2024-01-15 10:30:01.999".
Proof.
  assert (H := formatTime_rounds_seconds_up
             (mkLogRecord "INFO" (17053146009999996 # 10000000) (9999996 # 10000) "m" None None None None)
             sample_world 1705314600).
  rewrite H.
  - by_computation.
  - by_computation.
  - by_computation.
  - vm_compute. discriminate.
  - by_computation.
Defined.
